(** * Rate-limit gate of the chat endpoint

    Shallow embedding of
    - [src/server/db/queries.ts] (module [Queries]): the gate that
      returns a decision record, and
    - [src/unnamed/part_000] (module [Route]): the revision of the gate
      that returns a boolean, [recordRequest], and the chat route handler
      [POST] that calls them.

    Instants are JavaScript time values: integer milliseconds since the
    epoch, kept in [Z].  Tables are lists of rows in insertion order.
    Storage failures of the database driver are outside the model: every
    query below is a total function of the table contents. *)

From Stdlib Require Import ZArith List String Bool Lia.
Import ListNotations.
Open Scope Z_scope.

(** ** Time values (ECMAScript [Date]) *)

Module JSDate.

Definition msPerDay : Z := 86400000.

(** [Day(t) = floor(t / msPerDay)]. *)
Definition Day (t : Z) : Z := t / msPerDay.

(** [MakeDate(day, time) = day * msPerDay + time]. *)
Definition MakeDate (day time : Z) : Z := day * msPerDay + time.

(** [d.setUTCHours(0, 0, 0, 0)]: the time value of [d] becomes midnight
    of its UTC day. *)
Definition setUTCHours0 (t : Z) : Z := MakeDate (Day t) 0.

(** [d.setHours(0, 0, 0, 0)]: the same on the local time line.  [tza] is
    the offset of the process time zone, local = UTC + [tza]
    (a zone with a fixed offset). *)
Definition setHours0 (tza : Z) (t : Z) : Z := MakeDate (Day (t + tza)) 0 - tza.

(** Days since the epoch of a proleptic Gregorian date, used to write
    instants such as 2024-01-01T23:59:59Z. *)
Definition daysFromCivil (y m d : Z) : Z :=
  let y' := if m <=? 2 then y - 1 else y in
  let era := y' / 400 in
  let yoe := y' - era * 400 in
  let mp := (m + 9) mod 12 in
  let doy := (153 * mp + 2) / 5 + d - 1 in
  let doe := yoe * 365 + yoe / 4 - yoe / 100 + doy in
  era * 146097 + doe - 719468.

(** [Date.UTC(y, m - 1, d, hh, mm, ss)]. *)
Definition UTC (y m d hh mm ss : Z) : Z :=
  MakeDate (daysFromCivil y m d) (hh * 3600000 + mm * 60000 + ss * 1000).

End JSDate.

(** ** JavaScript coercions used by the gate *)

(** [x || 0] on a possibly missing number. *)
Definition orZero (x : option Z) : Z :=
  match x with
  | Some n => if n =? 0 then 0 else n
  | None => 0
  end.

(** [x ?? 0] on a possibly missing number. *)
Definition nullishZero (x : option Z) : Z :=
  match x with
  | Some n => n
  | None => 0
  end.

(** Truthiness of a possibly missing boolean ([x || false], [if (x)]). *)
Definition truthy (x : option bool) : bool :=
  match x with
  | Some b => b
  | None => false
  end.

(** ** SQL aggregate *)

(** [select count(...) from t where f]: the number of rows of [t] that
    satisfy [f], as a JavaScript number. *)
Definition countWhere {A : Type} (f : A -> bool) (l : list A) : Z :=
  Z.of_nat (List.length (filter f l)).

(** ** [src/server/db/queries.ts] *)

Module Queries.

Module users.
Record Row := { id : string; isAdmin : option bool }.
End users.

Module userRequests.
Record Row := { userId : string; createdAt : Z }.
End userRequests.

Record DB := { users : list users.Row; userRequests : list userRequests.Row }.

Definition DAILY_REQUEST_LIMIT : Z := 1.

Record CountRow := { count : option Z }.

Record RateLimitDecision := { allowed : bool; remaining : Z; limit : Z }.

(** [and(eq(userRequests.userId, userId), gte(userRequests.createdAt, today))] *)
Definition inWindow (userId : string) (today : Z) (r : userRequests.Row) : bool :=
  (userRequests.userId r =? userId)%string && (today <=? userRequests.createdAt r).

(** [db.select({ count: count() }).from(userRequests).where(...)]:
    an aggregate without grouping yields exactly one row. *)
Definition selectCount (db : DB) (userId : string) (today : Z) : list CountRow :=
  [ {| count := Some (countWhere (inWindow userId today) (userRequests db)) |} ].

(** [result[0]?.count] *)
Definition firstCount (result : list CountRow) : option Z :=
  match result with
  | [] => None
  | r :: _ => count r
  end.

Section Server.

(** Offset of the server's time zone (local time = UTC + [LocalTZA]). *)
Variable LocalTZA : Z.

Definition getUserDailyRequestCount (db : DB) (now : Z) (userId : string) : Z :=
  let today := JSDate.setHours0 LocalTZA now in
  let result := selectCount db userId today in
  orZero (firstCount result).

(** Modelled from the spec: the table declaration ([./schema]) is not
    among the sources; following the spec, the row appended for a usage
    gets [createdAt = now] from the column default. *)
Definition addUserRequest (db : DB) (now : Z) (userId : string) : DB :=
  {| users := users db;
     userRequests := userRequests db ++ [ {| userRequests.userId := userId;
                                             userRequests.createdAt := now |} ] |}.

Definition isUserAdmin (db : DB) (userId : string) : bool :=
  let user := firstn 1 (filter (fun u => (users.id u =? userId)%string) (users db)) in
  truthy (match user with
          | [] => None
          | u :: _ => users.isAdmin u
          end).

Definition checkRateLimit (db : DB) (now : Z) (userId : string) : RateLimitDecision :=
  let isAdmin := isUserAdmin db userId in
  if isAdmin then
    {| allowed := true; remaining := -1; limit := -1 |}
  else
    let dailyCount := getUserDailyRequestCount db now userId in
    let remaining := Z.max 0 (DAILY_REQUEST_LIMIT - dailyCount) in
    {| allowed := dailyCount <? DAILY_REQUEST_LIMIT;
       remaining := remaining;
       limit := DAILY_REQUEST_LIMIT |}.

End Server.

End Queries.

(** ** The second revision of the gate and the chat route handler *)

Module Route.

Module users.
Record Row := { id : string; isAdmin : option bool }.
End users.

Module requests.
Record Row := { userId : string; timestamp : Z }.
End requests.

Module chats.
Record Row := { id : string; userId : string }.
End chats.

Record DB := {
  users : list users.Row;
  requests : list requests.Row;
  chats : list chats.Row
}.

Definition REQUESTS_PER_DAY : Z := 1.

Record CountRow := { count : option Z }.

(** [and(eq(requests.userId, userId), gte(requests.timestamp, startOfDay))] *)
Definition inWindow (userId : string) (startOfDay : Z) (r : requests.Row) : bool :=
  (requests.userId r =? userId)%string && (startOfDay <=? requests.timestamp r).

(** [db.select({ count: sql count-all }).from(requests).where(...)] *)
Definition selectCount (db : DB) (userId : string) (startOfDay : Z) : list CountRow :=
  [ {| count := Some (countWhere (inWindow userId startOfDay) (requests db)) |} ].

(** [requestCount[0]?.count] *)
Definition firstCount (result : list CountRow) : option Z :=
  match result with
  | [] => None
  | r :: _ => count r
  end.

(** [db.query.users.findFirst({ where: eq(users.id, userId) })] *)
Definition findUser (db : DB) (userId : string) : option users.Row :=
  find (fun u => (users.id u =? userId)%string) (users db).

Definition checkRateLimit (db : DB) (now : Z) (userId : string) : bool :=
  let user := findUser db userId in
  if truthy (match user with
             | Some u => users.isAdmin u
             | None => None
             end)
  then true
  else
    let startOfDay := JSDate.setUTCHours0 now in
    let requestCount := selectCount db userId startOfDay in
    nullishZero (firstCount requestCount) <? REQUESTS_PER_DAY.

(** Modelled from the spec: the table declaration ([~/server/db/schema])
    is not among the sources; following the spec, the row appended for a
    usage gets [timestamp = now] from the column default. *)
Definition recordRequest (db : DB) (now : Z) (userId : string) : DB :=
  {| users := users db;
     requests := requests db ++ [ {| requests.userId := userId;
                                     requests.timestamp := now |} ];
     chats := chats db |}.

(** *** The [POST] handler *)

Record Message := { role : string; content : string }.

Module Session.
Record User := { id : string }.
Record t := { user : option User }.
End Session.

Module Body.
Record t := { messages : list Message; chatId : option string }.
End Body.

Module UpsertChat.
Record Args := {
  userId : string;
  chatId : string;
  title : string;
  messages : list Message
}.
End UpsertChat.

(** What the handler returns: [new Response(text, { status })] or the
    data stream built by [createDataStreamResponse]; the stream itself
    (model call, search tool, [onFinish]) runs after the handler has
    returned and is not part of the embedding. *)
Inductive Response :=
| TextResponse (text : string) (status : Z)
| DataStreamResponse (isNewChat : bool) (currentChatId : string) (messages : list Message).

Definition status (r : Response) : Z :=
  match r with
  | TextResponse _ s => s
  | DataStreamResponse _ _ _ => 200
  end.

(** An async function over the database that may leave early with a
    response: [inl r] is [return r] taken before the end. *)
Definition Handler (A : Type) : Type := DB -> (Response + A) * DB.

Definition ret {A : Type} (a : A) : Handler A := fun db => (inr a, db).

Definition bind {A B : Type} (m : Handler A) (k : A -> Handler B) : Handler B :=
  fun db =>
    match m db with
    | (inl r, db') => (inl r, db')
    | (inr a, db') => k a db'
    end.

Definition respond {A : Type} (r : Response) : Handler A := fun db => (inl r, db).

Definition query {A : Type} (q : DB -> A) : Handler A := fun db => (inr (q db), db).

Definition exec (u : DB -> DB) : Handler unit := fun db => (inr tt, u db).

Definition run (h : Handler Response) (db : DB) : Response * DB :=
  match h db with
  | (inl r, db') => (r, db')
  | (inr r, db') => (r, db')
  end.

Notation "'await' x ':=' m 'in' k" := (bind m (fun x => k))
  (at level 10, x name, m at level 100, k at level 200).

(** JavaScript truthiness of an optional string ([!currentChatId]). *)
Definition falsyString (s : option string) : bool :=
  match s with
  | None => true
  | Some EmptyString => true
  | Some (String _ _) => false
  end.

(** [messages[messages.length - 1]!.content.slice(0, 50) + "..."] *)
Definition chatTitle (messages : list Message) : string :=
  (substring 0 50 (content (last messages {| role := EmptyString; content := EmptyString |}))
   ++ "...")%string.

(** [session?.user] *)
Definition sessionUser (session : option Session.t) : option Session.User :=
  match session with
  | Some s => Session.user s
  | None => None
  end.

Section Handler.

(** [upsertChat] of [~/server/db/queries] is not among the sources. *)
Variable upsertChat : DB -> UpsertChat.Args -> DB.

(** [session] is the result of [auth()], [body] of [request.json()],
    [tCheck] and [tRecord] the clock readings at the check and at the
    insert, [uuid] the value [crypto.randomUUID()] would return. *)
Definition POST (session : option Session.t) (body : Body.t)
    (tCheck tRecord : Z) (uuid : string) : Handler Response :=
  match sessionUser session with
  | None => respond (TextResponse "Unauthorized" 401)
  | Some user =>
    (* Check rate limit *)
    await canMakeRequest :=
      query (fun db => checkRateLimit db tCheck (Session.id user)) in
    if negb canMakeRequest then
      respond (TextResponse "Rate limit exceeded" 429)
    else
    (* Record the request *)
    await _ := exec (fun db => recordRequest db tRecord (Session.id user)) in
    let messages := Body.messages body in
    let chatId := Body.chatId body in
    if (List.length messages =? 0)%nat then
      respond (TextResponse "No messages provided" 400)
    else
    (* If no chatId is provided, create a new chat *)
    await chat :=
      if falsyString chatId then
        let newChatId := uuid in
        await _ := exec (fun db => upsertChat db
            {| UpsertChat.userId := Session.id user;
               UpsertChat.chatId := newChatId;
               UpsertChat.title := chatTitle messages;
               UpsertChat.messages := messages |}) in
        ret (newChatId, true)
      else
        let currentChatId := match chatId with
                             | Some c => c
                             | None => EmptyString
                             end in
        (* Verify the chat belongs to the user *)
        await chat := query (fun db =>
            find (fun c => (chats.id c =? currentChatId)%string) (chats db)) in
        match chat with
        | None => respond (TextResponse "Chat not found or unauthorized" 404)
        | Some c =>
          if negb (chats.userId c =? Session.id user)%string then
            respond (TextResponse "Chat not found or unauthorized" 404)
          else ret (currentChatId, false)
        end in
    ret (DataStreamResponse (snd chat) (fst chat) messages)
  end.

End Handler.

End Route.

(** ** Vocabulary of the statements *)

(** The user is exempt from the limit in the handler's gate: a row with
    that id exists and the first such row has a truthy [isAdmin]. *)
Definition privileged (db : Route.DB) (userId : string) : bool :=
  truthy (match Route.findUser db userId with
          | Some u => Route.users.isAdmin u
          | None => None
          end).

(** The same users and usage rows, seen through the table names of the
    handler's revision ([requests.timestamp] for [userRequests.createdAt]). *)
Definition toRoute (db : Queries.DB) (chats : list Route.chats.Row) : Route.DB :=
  {| Route.users :=
       map (fun u => {| Route.users.id := Queries.users.id u;
                        Route.users.isAdmin := Queries.users.isAdmin u |})
           (Queries.users db);
     Route.requests :=
       map (fun r => {| Route.requests.userId := Queries.userRequests.userId r;
                        Route.requests.timestamp := Queries.userRequests.createdAt r |})
           (Queries.userRequests db);
     Route.chats := chats |}.

(** A stand-in for the absent [upsertChat]: it stores the chat's id and
    owner, replacing an earlier row with the same id. *)
Definition upsertChatRow (db : Route.DB) (a : Route.UpsertChat.Args) : Route.DB :=
  {| Route.users := Route.users db;
     Route.requests := Route.requests db;
     Route.chats :=
       {| Route.chats.id := Route.UpsertChat.chatId a;
          Route.chats.userId := Route.UpsertChat.userId a |}
       :: filter (fun c => negb (Route.chats.id c =? Route.UpsertChat.chatId a)%string)
                 (Route.chats db) |}.

(** ** Sample data *)

Definition dbC1 : Queries.DB :=
  {| Queries.users := [ {| Queries.users.id := "alice"; Queries.users.isAdmin := Some false |} ];
     Queries.userRequests :=
       [ {| Queries.userRequests.userId := "alice";
            Queries.userRequests.createdAt := JSDate.UTC 2024 1 2 8 0 0 |};
         {| Queries.userRequests.userId := "alice";
            Queries.userRequests.createdAt := JSDate.UTC 2024 1 2 9 0 0 |};
         {| Queries.userRequests.userId := "bob";
            Queries.userRequests.createdAt := JSDate.UTC 2024 1 2 9 30 0 |} ] |}.

Definition dbAdmin : Queries.DB :=
  {| Queries.users := [ {| Queries.users.id := "root"; Queries.users.isAdmin := Some true |} ];
     Queries.userRequests :=
       repeat {| Queries.userRequests.userId := "root";
                 Queries.userRequests.createdAt := JSDate.UTC 2024 1 2 8 0 0 |} 1000 |}.

Definition dbFresh : Queries.DB :=
  {| Queries.users := [ {| Queries.users.id := "alice"; Queries.users.isAdmin := Some false |} ];
     Queries.userRequests :=
       [ {| Queries.userRequests.userId := "alice";
            Queries.userRequests.createdAt := JSDate.UTC 2024 1 1 23 59 59 |} ] |}.

Definition rdb : Route.DB :=
  {| Route.users := [ {| Route.users.id := "alice"; Route.users.isAdmin := Some false |};
                      {| Route.users.id := "bob"; Route.users.isAdmin := None |} ];
     Route.requests := [ {| Route.requests.userId := "alice";
                            Route.requests.timestamp := JSDate.UTC 2024 1 1 23 59 59 |} ];
     Route.chats := [ {| Route.chats.id := "c1"; Route.chats.userId := "bob" |} ] |}.

Definition sessAlice : option Route.Session.t :=
  Some {| Route.Session.user := Some {| Route.Session.id := "alice" |} |}.

Definition hello : Route.Message :=
  {| Route.role := "user"; Route.content := "hello" |}.

Definition bodyEmpty : Route.Body.t :=
  {| Route.Body.messages := []; Route.Body.chatId := None |}.

Definition bodyNewChat : Route.Body.t :=
  {| Route.Body.messages := [hello]; Route.Body.chatId := None |}.

Definition bodyForeignChat : Route.Body.t :=
  {| Route.Body.messages := [hello]; Route.Body.chatId := Some "c1"%string |}.

(** ** Callbacks of the data stream ([src/unnamed/part_000])

    What [createDataStreamResponse] is given: [execute] first announces a
    new chat on the stream and then hands over to the model call, whose
    output is external; [onFinish] stores the chat once the model has
    answered.  The closures capture [session.user.id], [currentChatId],
    [isNewChat] and [messages] of the handler. *)

Module Stream.

(** [dataStream.writeData({ type: "NEW_CHAT_CREATED", chatId })] *)
Inductive Data :=
| NEW_CHAT_CREATED (chatId : string).

(** The writes of [execute] that precede [streamText]. *)
Definition execute (isNewChat : bool) (currentChatId : string) : list Data :=
  if isNewChat then [NEW_CHAT_CREATED currentChatId] else [].

Section Callbacks.

(** [upsertChat] of [~/server/db/queries] and [appendResponseMessages]
    of the [ai] package are not among the sources. *)
Variable upsertChat : Route.DB -> Route.UpsertChat.Args -> Route.DB.
Variable ResponseMessage : Type.
Variable appendResponseMessages :
  list Route.Message -> list ResponseMessage -> list Route.Message.

Definition onFinish (userId currentChatId : string) (messages : list Route.Message)
    (responseMessages : list ResponseMessage) (db : Route.DB) : Route.DB :=
  (* Merge the existing messages with the response messages *)
  let updatedMessages := appendResponseMessages messages responseMessages in
  let lastMessage := nth_error messages (List.length messages - 1) in
  match lastMessage with
  | None => db
  | Some lastMessage =>
    (* Save the complete chat history *)
    upsertChat db
      {| Route.UpsertChat.userId := userId;
         Route.UpsertChat.chatId := currentChatId;
         Route.UpsertChat.title :=
           (substring 0 50 (Route.content lastMessage) ++ "...")%string;
         Route.UpsertChat.messages := updatedMessages |}
  end.

End Callbacks.

End Stream.

(** The data a response puts on the stream before the model's output. *)
Definition announced (r : Route.Response) : list Stream.Data :=
  match r with
  | Route.TextResponse _ _ => []
  | Route.DataStreamResponse isNewChat currentChatId _ =>
    Stream.execute isNewChat currentChatId
  end.

(** The database after the usage rows for the instants [ts] have been
    written one after the other. *)
Definition addUserRequests (db : Queries.DB) (ts : list Z) (userId : string) : Queries.DB :=
  fold_left (fun d t => Queries.addUserRequest d t userId) ts db.

Definition rdbAdmin : Route.DB :=
  {| Route.users := [ {| Route.users.id := "root"; Route.users.isAdmin := Some true |} ];
     Route.requests :=
       repeat {| Route.requests.userId := "root";
                 Route.requests.timestamp := JSDate.UTC 2024 1 2 8 0 0 |} 5;
     Route.chats := [ {| Route.chats.id := "c9"; Route.chats.userId := "root" |} ] |}.

Definition sessRoot : option Route.Session.t :=
  Some {| Route.Session.user := Some {| Route.Session.id := "root" |} |}.

Definition bodyOwnChat : Route.Body.t :=
  {| Route.Body.messages := [hello]; Route.Body.chatId := Some "c9"%string |}.

(** * Properties *)

(** ** Start of day *)

Lemma msPerDay_pos : 0 < JSDate.msPerDay.
Proof. reflexivity. Qed.


Lemma setUTCHours0_mono (t1 t2 : Z) :
  t1 <= t2 -> JSDate.setUTCHours0 t1 <= JSDate.setUTCHours0 t2.
Proof.
  intros H. unfold JSDate.setUTCHours0, JSDate.MakeDate, JSDate.Day.
  pose proof (Z.div_le_mono t1 t2 JSDate.msPerDay msPerDay_pos H).
  pose proof msPerDay_pos. nia.
Qed.

Lemma setUTCHours0_idem (t : Z) :
  JSDate.setUTCHours0 (JSDate.setUTCHours0 t) = JSDate.setUTCHours0 t.
Proof.
  unfold JSDate.setUTCHours0, JSDate.MakeDate, JSDate.Day.
  rewrite !Z.add_0_r, Z.div_mul; [reflexivity | discriminate].
Qed.

Lemma setHours0_UTC (t : Z) : JSDate.setHours0 0 t = JSDate.setUTCHours0 t.
Proof. unfold JSDate.setHours0, JSDate.setUTCHours0. rewrite Z.add_0_r. lia. Qed.

Lemma setHours0_shift (tza t : Z) :
  JSDate.setHours0 tza t = JSDate.setUTCHours0 (t + tza) - tza.
Proof. reflexivity. Qed.


Lemma setHours0_mono (tza t1 t2 : Z) :
  t1 <= t2 -> JSDate.setHours0 tza t1 <= JSDate.setHours0 tza t2.
Proof.
  intros H. rewrite !setHours0_shift.
  pose proof (setUTCHours0_mono (t1 + tza) (t2 + tza)). lia.
Qed.

Example UTC_2024_01_01 : JSDate.UTC 2024 1 1 0 0 0 = 1704067200000.
Proof. reflexivity. Qed.

Example UTC_1970_01_01 : JSDate.UTC 1970 1 1 0 0 0 = 0.
Proof. reflexivity. Qed.

Example UTC_2000_03_01 : JSDate.UTC 2000 3 1 12 0 0 = 951912000000.
Proof. reflexivity. Qed.

(** ** Counting rows *)

Section Counting.

Context {A : Type}.

Lemma countWhere_nonneg (f : A -> bool) (l : list A) : 0 <= countWhere f l.
Proof. unfold countWhere. lia. Qed.

Lemma countWhere_snoc (f : A -> bool) (l : list A) (x : A) :
  countWhere f (l ++ [x]) = countWhere f l + (if f x then 1 else 0).
Proof.
  unfold countWhere. rewrite filter_app, length_app. simpl.
  destruct (f x); simpl; lia.
Qed.

Lemma countWhere_weaken (f g : A -> bool) (l : list A) :
  (forall x, f x = true -> g x = true) -> countWhere f l <= countWhere g l.
Proof.
  intros Hfg. unfold countWhere. induction l as [|x l IH]; simpl; [lia|].
  destruct (f x) eqn:Hf.
  - rewrite (Hfg x Hf). simpl. lia.
  - destruct (g x); simpl; lia.
Qed.

Lemma countWhere_ext (f g : A -> bool) (l : list A) :
  (forall x, f x = g x) -> countWhere f l = countWhere g l.
Proof.
  intros Hfg. unfold countWhere. rewrite (filter_ext f g Hfg). reflexivity.
Qed.

Lemma countWhere_zero (f : A -> bool) (l : list A) :
  (forall x, In x l -> f x = false) -> countWhere f l = 0.
Proof.
  intros H. unfold countWhere. induction l as [|x l IH]; simpl; [reflexivity|].
  rewrite (H x (or_introl eq_refl)). apply IH. intros y Hy. apply H. now right.
Qed.

End Counting.

Lemma orZero_nonneg_id (n : Z) : orZero (Some n) = n.
Proof. unfold orZero. destruct (Z.eqb_spec n 0); congruence. Qed.

(** ** The gate of [queries.ts] *)

Lemma getUserDailyRequestCount_count (tza : Z) (db : Queries.DB) (now : Z) (u : string) :
  Queries.getUserDailyRequestCount tza db now u =
  countWhere (Queries.inWindow u (JSDate.setHours0 tza now)) (Queries.userRequests db).
Proof.
  unfold Queries.getUserDailyRequestCount, Queries.selectCount, Queries.firstCount.
  cbn [Queries.count]. apply orZero_nonneg_id.
Qed.

Lemma checkRateLimit_limited (tza : Z) (db : Queries.DB) (now : Z) (u : string) :
  Queries.isUserAdmin db u = false ->
  Queries.checkRateLimit tza db now u =
  let n := Queries.getUserDailyRequestCount tza db now u in
  {| Queries.allowed := n <? Queries.DAILY_REQUEST_LIMIT;
     Queries.remaining := Z.max 0 (Queries.DAILY_REQUEST_LIMIT - n);
     Queries.limit := Queries.DAILY_REQUEST_LIMIT |}.
Proof. intros H. unfold Queries.checkRateLimit. rewrite H. reflexivity. Qed.

Lemma isUserAdmin_users (db db' : Queries.DB) (u : string) :
  Queries.users db' = Queries.users db ->
  Queries.isUserAdmin db' u = Queries.isUserAdmin db u.
Proof. intros H. unfold Queries.isUserAdmin. rewrite H. reflexivity. Qed.

Lemma addUserRequest_count (db : Queries.DB) (t : Z) (u v : string) (since : Z) :
  countWhere (Queries.inWindow v since)
    (Queries.userRequests (Queries.addUserRequest db t u)) =
  countWhere (Queries.inWindow v since) (Queries.userRequests db)
  + (if ((u =? v)%string && (since <=? t))%bool then 1 else 0).
Proof.
  unfold Queries.addUserRequest. cbn [Queries.userRequests].
  rewrite countWhere_snoc. reflexivity.
Qed.

Lemma inWindow_later (u : string) (s1 s2 : Z) (r : Queries.userRequests.Row) :
  s1 <= s2 -> Queries.inWindow u s2 r = true -> Queries.inWindow u s1 r = true.
Proof.
  unfold Queries.inWindow. intros Hs H.
  apply andb_true_iff in H as [Hu Ht]. apply andb_true_iff. split; [exact Hu|].
  apply Z.leb_le in Ht. apply Z.leb_le. lia.
Qed.

(** C1. For a user who is not an administrator, [checkRateLimit] answers
    with [limit = DAILY_REQUEST_LIMIT = 1], [remaining = max 0 (limit - n)]
    and [allowed = (n < limit)], where [n] is the number of the user's
    rows whose [createdAt] is at or after the start of the current day as
    the function computes it; [remaining] is never negative. *)
Theorem C1_checkRateLimit_non_privileged
    (tza : Z) (db : Queries.DB) (now : Z) (u : string) :
  Queries.isUserAdmin db u = false ->
  let n := Z.of_nat (List.length (filter
             (fun r => (Queries.userRequests.userId r =? u)%string
                       && (JSDate.setHours0 tza now <=? Queries.userRequests.createdAt r))
             (Queries.userRequests db))) in
  let d := Queries.checkRateLimit tza db now u in
  Queries.limit d = Queries.DAILY_REQUEST_LIMIT /\
  Queries.DAILY_REQUEST_LIMIT = 1 /\
  Queries.remaining d = Z.max 0 (Queries.limit d - n) /\
  Queries.allowed d = (n <? Queries.limit d) /\
  0 <= Queries.remaining d.
Proof.
  intros Hadm n d. subst d.
  rewrite (checkRateLimit_limited tza db now u Hadm).
  rewrite getUserDailyRequestCount_count.
  cbn [Queries.limit Queries.remaining Queries.allowed].
  fold n. repeat split; try reflexivity. apply Z.le_max_l.
Qed.

Lemma C1_witness :
  Queries.isUserAdmin dbC1 "alice" = false /\
  0 <= Queries.remaining
         (Queries.checkRateLimit 0 dbC1 (JSDate.UTC 2024 1 2 10 0 0) "alice").
Proof.
  split; [reflexivity|].
  exact (proj2 (proj2 (proj2 (proj2
    (C1_checkRateLimit_non_privileged 0 dbC1 (JSDate.UTC 2024 1 2 10 0 0)
       "alice" eq_refl))))).
Defined.

(** C3. For an administrator [checkRateLimit] answers
    [{allowed: true, remaining: -1, limit: -1}], and the answer is the
    same for every content of the usage table, every instant and every
    time zone: the usage rows are not consulted. *)
Theorem C3_checkRateLimit_privileged
    (tza : Z) (db : Queries.DB) (now : Z) (u : string) :
  Queries.isUserAdmin db u = true ->
  Queries.checkRateLimit tza db now u =
    {| Queries.allowed := true; Queries.remaining := -1; Queries.limit := -1 |} /\
  forall (tza' : Z) (rows : list Queries.userRequests.Row) (now' : Z),
    Queries.checkRateLimit tza'
      {| Queries.users := Queries.users db; Queries.userRequests := rows |} now' u =
    {| Queries.allowed := true; Queries.remaining := -1; Queries.limit := -1 |}.
Proof.
  intros Hadm. split.
  - unfold Queries.checkRateLimit. rewrite Hadm. reflexivity.
  - intros tza' rows now'.
    pose proof (isUserAdmin_users db
      {| Queries.users := Queries.users db; Queries.userRequests := rows |} u eq_refl) as E.
    unfold Queries.checkRateLimit. rewrite E, Hadm. reflexivity.
Qed.

Lemma C3_witness :
  Queries.isUserAdmin dbAdmin "root" = true /\
  Queries.checkRateLimit 0 dbAdmin (JSDate.UTC 2024 1 2 10 0 0) "root" =
    {| Queries.allowed := true; Queries.remaining := -1; Queries.limit := -1 |}.
Proof.
  split; [reflexivity|].
  exact (proj1 (C3_checkRateLimit_privileged 0 dbAdmin (JSDate.UTC 2024 1 2 10 0 0)
                  "root" eq_refl)).
Defined.

Lemma getUserDailyRequestCount_add (tza : Z) (db : Queries.DB) (now t : Z) (u : string) :
  JSDate.setHours0 tza t <= now ->
  Queries.getUserDailyRequestCount tza (Queries.addUserRequest db now u) t u =
  Queries.getUserDailyRequestCount tza db t u + 1.
Proof.
  intros Hw. rewrite !getUserDailyRequestCount_count, addUserRequest_count.
  rewrite String.eqb_refl. apply Z.leb_le in Hw. rewrite Hw. reflexivity.
Qed.

Lemma getUserDailyRequestCount_later (tza : Z) (db : Queries.DB) (t1 t2 : Z) (u : string) :
  t1 <= t2 ->
  Queries.getUserDailyRequestCount tza db t2 u <=
  Queries.getUserDailyRequestCount tza db t1 u.
Proof.
  intros Ht. rewrite !getUserDailyRequestCount_count.
  apply countWhere_weaken. intros r. apply inWindow_later.
  now apply setHours0_mono.
Qed.

Lemma getUserDailyRequestCount_nonneg (tza : Z) (db : Queries.DB) (now : Z) (u : string) :
  0 <= Queries.getUserDailyRequestCount tza db now u.
Proof. rewrite getUserDailyRequestCount_count. apply countWhere_nonneg. Qed.

(** C5. For a user who is not an administrator: with no usage row in
    today's window the gate answers [{allowed: true, remaining: 1,
    limit: 1}]; after one [addUserRequest] made today, a check later the
    same day answers [{allowed: false, remaining: 0, limit: 1}]; and
    whenever today's count equals the limit the gate answers
    [allowed = false], [remaining = 0]. *)
Theorem C5_limit_reached (tza : Z) (db : Queries.DB) (t : Z) (u : string) :
  Queries.isUserAdmin db u = false ->
  (Queries.getUserDailyRequestCount tza db t u = 0 ->
     Queries.checkRateLimit tza db t u =
       {| Queries.allowed := true; Queries.remaining := 1; Queries.limit := 1 |} /\
     forall t2 t3 : Z, t <= t3 -> JSDate.setHours0 tza t3 <= t2 ->
       Queries.checkRateLimit tza (Queries.addUserRequest db t2 u) t3 u =
       {| Queries.allowed := false; Queries.remaining := 0; Queries.limit := 1 |}) /\
  (Queries.getUserDailyRequestCount tza db t u = Queries.DAILY_REQUEST_LIMIT ->
     Queries.allowed (Queries.checkRateLimit tza db t u) = false /\
     Queries.remaining (Queries.checkRateLimit tza db t u) = 0).
Proof.
  intros Hadm. split.
  - intros H0. split.
    + rewrite (checkRateLimit_limited tza db t u Hadm). cbv zeta. rewrite H0. reflexivity.
    + intros t2 t3 Ht Hw.
      assert (Hadm' : Queries.isUserAdmin (Queries.addUserRequest db t2 u) u = false)
        by (rewrite (isUserAdmin_users db (Queries.addUserRequest db t2 u) u eq_refl);
            exact Hadm).
      rewrite (checkRateLimit_limited tza _ t3 u Hadm'). cbv zeta.
      rewrite (getUserDailyRequestCount_add tza db t2 t3 u Hw).
      pose proof (getUserDailyRequestCount_later tza db t t3 u Ht) as Hle.
      pose proof (getUserDailyRequestCount_nonneg tza db t3 u) as Hge.
      replace (Queries.getUserDailyRequestCount tza db t3 u) with 0 by lia.
      reflexivity.
  - intros HL. rewrite (checkRateLimit_limited tza db t u Hadm). cbv zeta.
    cbn [Queries.allowed Queries.remaining]. rewrite HL. split.
    + apply Z.ltb_irrefl.
    + rewrite Z.sub_diag. reflexivity.
Qed.

Lemma C5_witness :
  Queries.isUserAdmin dbFresh "alice" = false /\
  Queries.getUserDailyRequestCount 0 dbFresh (JSDate.UTC 2024 1 2 0 0 1) "alice" = 0 /\
  Queries.checkRateLimit 0
    (Queries.addUserRequest dbFresh (JSDate.UTC 2024 1 2 0 0 2) "alice")
    (JSDate.UTC 2024 1 2 12 0 0) "alice" =
  {| Queries.allowed := false; Queries.remaining := 0; Queries.limit := 1 |}.
Proof.
  split; [reflexivity|]. split; [reflexivity|].
  refine (proj2 (proj1 (C5_limit_reached 0 dbFresh (JSDate.UTC 2024 1 2 0 0 1)
                         "alice" eq_refl) eq_refl) _ _ _ _).
  - vm_compute. discriminate.
  - vm_compute. discriminate.
Defined.

(** C6. [addUserRequest] appends exactly one row, for the given user and
    with [createdAt = now], and leaves the other rows and the users
    untouched; a count for that user over any window that starts at or
    before [now] is one more after the insert than before it, and the
    count for any other user is unchanged. *)
Theorem C6_addUserRequest_counted_once (db : Queries.DB) (now : Z) (u : string) :
  Queries.userRequests (Queries.addUserRequest db now u) =
    Queries.userRequests db ++
    [ {| Queries.userRequests.userId := u; Queries.userRequests.createdAt := now |} ] /\
  Queries.users (Queries.addUserRequest db now u) = Queries.users db /\
  (forall since : Z, since <= now ->
     countWhere (Queries.inWindow u since)
       (Queries.userRequests (Queries.addUserRequest db now u)) =
     countWhere (Queries.inWindow u since) (Queries.userRequests db) + 1) /\
  (forall (tza t : Z), JSDate.setHours0 tza t <= now ->
     Queries.getUserDailyRequestCount tza (Queries.addUserRequest db now u) t u =
     Queries.getUserDailyRequestCount tza db t u + 1) /\
  (forall (v : string) (since : Z), v <> u ->
     countWhere (Queries.inWindow v since)
       (Queries.userRequests (Queries.addUserRequest db now u)) =
     countWhere (Queries.inWindow v since) (Queries.userRequests db)).
Proof.
  split; [reflexivity|]. split; [reflexivity|]. split; [|split].
  - intros since Hs. rewrite addUserRequest_count, String.eqb_refl.
    apply Z.leb_le in Hs. rewrite Hs. reflexivity.
  - intros tza t Hw. now apply getUserDailyRequestCount_add.
  - intros v since Hv. rewrite addUserRequest_count.
    destruct (String.eqb_spec u v) as [->|_]; [congruence|]. cbn. lia.
Qed.

Lemma C6_witness :
  JSDate.setHours0 0 (JSDate.UTC 2024 1 2 12 0 0) <= JSDate.UTC 2024 1 2 0 0 2 /\
  Queries.getUserDailyRequestCount 0
    (Queries.addUserRequest dbC1 (JSDate.UTC 2024 1 2 0 0 2) "alice")
    (JSDate.UTC 2024 1 2 12 0 0) "alice" =
  Queries.getUserDailyRequestCount 0 dbC1 (JSDate.UTC 2024 1 2 12 0 0) "alice" + 1.
Proof.
  assert (H : JSDate.setHours0 0 (JSDate.UTC 2024 1 2 12 0 0) <= JSDate.UTC 2024 1 2 0 0 2)
    by (vm_compute; discriminate).
  split; [exact H|].
  exact (proj1 (proj2 (proj2 (proj2
    (C6_addUserRequest_counted_once dbC1 (JSDate.UTC 2024 1 2 0 0 2) "alice"))))
    0 (JSDate.UTC 2024 1 2 12 0 0) H).
Defined.

(** C10. [getUserDailyRequestCount] always yields a number that is not
    negative; it yields 0 when the user has no row in the window, and the
    fallback [result[0]?.count || 0] yields 0 when the query result has
    no row or its first row has a null count. *)
Theorem C10_getUserDailyRequestCount_total :
  (forall (tza : Z) (db : Queries.DB) (now : Z) (u : string),
     0 <= Queries.getUserDailyRequestCount tza db now u) /\
  (forall (tza : Z) (db : Queries.DB) (now : Z) (u : string),
     (forall r, In r (Queries.userRequests db) ->
        Queries.userRequests.userId r = u ->
        Queries.userRequests.createdAt r < JSDate.setHours0 tza now) ->
     Queries.getUserDailyRequestCount tza db now u = 0) /\
  orZero (Queries.firstCount []) = 0 /\
  (forall rest : list Queries.CountRow,
     orZero (Queries.firstCount ({| Queries.count := None |} :: rest)) = 0) /\
  (forall result : list Queries.CountRow,
     (forall r c, In r result -> Queries.count r = Some c -> 0 <= c) ->
     0 <= orZero (Queries.firstCount result)).
Proof.
  split; [exact getUserDailyRequestCount_nonneg|]. split; [|split; [|split]].
  - intros tza db now u Hnone. rewrite getUserDailyRequestCount_count.
    apply countWhere_zero. intros r Hr. unfold Queries.inWindow.
    destruct (String.eqb_spec (Queries.userRequests.userId r) u) as [Hu|_]; [|reflexivity].
    specialize (Hnone r Hr Hu). cbn. apply Z.leb_gt. exact Hnone.
  - reflexivity.
  - reflexivity.
  - intros [|r rest] Hpos; cbn; [lia|].
    destruct (Queries.count r) as [c|] eqn:Hc; cbn; [|lia].
    specialize (Hpos r c (or_introl eq_refl) Hc).
    destruct (c =? 0); lia.
Qed.

Lemma C10_witness :
  Queries.getUserDailyRequestCount 0 dbFresh (JSDate.UTC 2024 1 2 0 0 1) "alice" = 0.
Proof.
  apply (proj1 (proj2 C10_getUserDailyRequestCount_total)).
  intros r [<-|[]] _. vm_compute. reflexivity.
Defined.

Lemma filter_none {A : Type} (f : A -> bool) (l : list A) :
  (forall x, In x l -> f x = false) -> filter f l = [].
Proof.
  intros H. induction l as [|x l IH]; [reflexivity|]. simpl.
  rewrite (H x (or_introl eq_refl)). apply IH. intros y Hy. apply H. now right.
Qed.

Lemma isUserAdmin_absent (db : Queries.DB) (u : string) :
  (forall r, In r (Queries.users db) -> Queries.users.id r <> u) ->
  Queries.isUserAdmin db u = false.
Proof.
  intros Habs. unfold Queries.isUserAdmin. rewrite filter_none; [reflexivity|].
  intros r Hr. apply String.eqb_neq. now apply Habs.
Qed.

Lemma findUser_absent (db : Route.DB) (u : string) :
  (forall r, In r (Route.users db) -> Route.users.id r <> u) ->
  Route.findUser db u = None.
Proof.
  intros Habs. unfold Route.findUser.
  destruct (find _ _) as [r|] eqn:Hf; [|reflexivity].
  apply find_some in Hf as [Hin Heq]. apply String.eqb_eq in Heq.
  now elim (Habs r Hin).
Qed.

(** C7. When no row of the users table has the given id, [isUserAdmin]
    answers [false] and [checkRateLimit] gives the answer of a limited
    user: the same decision as if the user were stored with a falsy
    [isAdmin] flag, computed from the usage rows alone.  The same holds
    for the gate called by the route handler. *)
Theorem C7_unknown_user_not_privileged :
  (forall (tza : Z) (db : Queries.DB) (now : Z) (u : string),
     (forall r, In r (Queries.users db) -> Queries.users.id r <> u) ->
     Queries.isUserAdmin db u = false /\
     Queries.checkRateLimit tza db now u =
       (let n := Queries.getUserDailyRequestCount tza db now u in
        {| Queries.allowed := n <? Queries.DAILY_REQUEST_LIMIT;
           Queries.remaining := Z.max 0 (Queries.DAILY_REQUEST_LIMIT - n);
           Queries.limit := Queries.DAILY_REQUEST_LIMIT |}) /\
     forall flag : option bool, truthy flag = false ->
       Queries.checkRateLimit tza db now u =
       Queries.checkRateLimit tza
         {| Queries.users :=
              {| Queries.users.id := u; Queries.users.isAdmin := flag |} :: Queries.users db;
            Queries.userRequests := Queries.userRequests db |} now u) /\
  (forall (db : Route.DB) (now : Z) (u : string),
     (forall r, In r (Route.users db) -> Route.users.id r <> u) ->
     Route.findUser db u = None /\
     forall flag : option bool, truthy flag = false ->
       Route.checkRateLimit db now u =
       Route.checkRateLimit
         {| Route.users :=
              {| Route.users.id := u; Route.users.isAdmin := flag |} :: Route.users db;
            Route.requests := Route.requests db;
            Route.chats := Route.chats db |} now u).
Proof.
  split.
  - intros tza db now u Habs.
    pose proof (isUserAdmin_absent db u Habs) as Hadm.
    split; [exact Hadm|]. split; [now apply checkRateLimit_limited|].
    intros flag Hflag. rewrite (checkRateLimit_limited tza db now u Hadm).
    unfold Queries.checkRateLimit, Queries.isUserAdmin. cbn [Queries.users filter].
    rewrite String.eqb_refl. cbn [firstn Queries.users.isAdmin]. rewrite Hflag.
    reflexivity.
  - intros db now u Habs.
    pose proof (findUser_absent db u Habs) as Hnone.
    split; [exact Hnone|].
    intros flag Hflag. unfold Route.checkRateLimit. rewrite Hnone.
    unfold Route.findUser. cbn [Route.users find]. rewrite String.eqb_refl.
    cbn [Route.users.isAdmin]. rewrite Hflag. reflexivity.
Qed.

Lemma C7_witness :
  Queries.isUserAdmin dbC1 "mallory" = false /\
  Queries.checkRateLimit 0 dbC1 (JSDate.UTC 2024 1 2 10 0 0) "mallory" =
  {| Queries.allowed := true; Queries.remaining := 1; Queries.limit := 1 |} /\
  Route.findUser rdb "mallory" = None.
Proof.
  assert (Habs : forall r, In r (Queries.users dbC1) -> Queries.users.id r <> "mallory"%string)
    by (intros r [<-|[]]; discriminate).
  assert (Habs' : forall r, In r (Route.users rdb) -> Route.users.id r <> "mallory"%string)
    by (intros r [<-|[<-|[]]]; discriminate).
  destruct (proj1 C7_unknown_user_not_privileged 0 dbC1
              (JSDate.UTC 2024 1 2 10 0 0) "mallory"%string Habs) as (H1 & H2 & _).
  split; [exact H1|]. split; [rewrite H2; reflexivity|].
  exact (proj1 (proj2 C7_unknown_user_not_privileged rdb
                  (JSDate.UTC 2024 1 2 10 0 0) "mallory"%string Habs')).
Defined.

(** ** The gate called by the route handler *)

Lemma Route_checkRateLimit_limited (db : Route.DB) (now : Z) (u : string) :
  privileged db u = false ->
  Route.checkRateLimit db now u =
  (countWhere (Route.inWindow u (JSDate.setUTCHours0 now)) (Route.requests db)
   <? Route.REQUESTS_PER_DAY).
Proof.
  unfold privileged, Route.checkRateLimit. intros H. rewrite H. reflexivity.
Qed.

Lemma Route_checkRateLimit_privileged (db : Route.DB) (now : Z) (u : string) :
  privileged db u = true -> Route.checkRateLimit db now u = true.
Proof.
  unfold privileged, Route.checkRateLimit. intros H. rewrite H. reflexivity.
Qed.

Lemma recordRequest_count (db : Route.DB) (t : Z) (u v : string) (since : Z) :
  countWhere (Route.inWindow v since) (Route.requests (Route.recordRequest db t u)) =
  countWhere (Route.inWindow v since) (Route.requests db)
  + (if ((u =? v)%string && (since <=? t))%bool then 1 else 0).
Proof.
  unfold Route.recordRequest. cbn [Route.requests].
  rewrite countWhere_snoc. reflexivity.
Qed.

Lemma Route_inWindow_later (u : string) (s1 s2 : Z) (r : Route.requests.Row) :
  s1 <= s2 -> Route.inWindow u s2 r = true -> Route.inWindow u s1 r = true.
Proof.
  unfold Route.inWindow. intros Hs H.
  apply andb_true_iff in H as [Hu Ht]. apply andb_true_iff. split; [exact Hu|].
  apply Z.leb_le in Ht. apply Z.leb_le. lia.
Qed.

(** X6. The handler's gate counts by UTC calendar day: when every row of the
    user is stamped before the UTC midnight that precedes the check,
    nothing is counted and a limited user is admitted. *)
Lemma Route_previous_UTC_day_not_counted (db : Route.DB) (now : Z) (u : string) :
  privileged db u = false ->
  (forall r, In r (Route.requests db) -> Route.requests.userId r = u ->
     Route.requests.timestamp r < JSDate.Day now * JSDate.msPerDay) ->
  countWhere (Route.inWindow u (JSDate.setUTCHours0 now)) (Route.requests db) = 0 /\
  Route.checkRateLimit db now u = true.
Proof.
  intros Hp Hold.
  assert (H0 : countWhere (Route.inWindow u (JSDate.setUTCHours0 now)) (Route.requests db) = 0).
  { apply countWhere_zero. intros r Hr. unfold Route.inWindow.
    destruct (String.eqb_spec (Route.requests.userId r) u) as [Hu|_]; [|reflexivity].
    specialize (Hold r Hr Hu). cbn. apply Z.leb_gt.
    unfold JSDate.setUTCHours0, JSDate.MakeDate. lia. }
  split; [exact H0|].
  rewrite (Route_checkRateLimit_limited db now u Hp), H0. reflexivity.
Qed.

(** C2. With the server in the zone UTC-01:00, [getUserDailyRequestCount]
    of [queries.ts] takes local midnight, 2024-01-01T01:00:00Z, as the
    start of the day when called at 2024-01-02T00:00:01Z; the row created
    at 2024-01-01T23:59:59Z, on the previous UTC day, is counted and the
    user is refused.  The gate of the route handler, on the same rows and
    at the same instant, starts the day at 2024-01-02T00:00:00Z and
    admits the user. *)
Theorem C2_local_midnight_counts_previous_UTC_day :
  JSDate.setHours0 (-3600000) (JSDate.UTC 2024 1 2 0 0 1) = JSDate.UTC 2024 1 1 1 0 0 /\
  Queries.getUserDailyRequestCount (-3600000) dbFresh
    (JSDate.UTC 2024 1 2 0 0 1) "alice" = 1 /\
  Queries.checkRateLimit (-3600000) dbFresh (JSDate.UTC 2024 1 2 0 0 1) "alice" =
    {| Queries.allowed := false; Queries.remaining := 0; Queries.limit := 1 |} /\
  JSDate.setUTCHours0 (JSDate.UTC 2024 1 2 0 0 1) = JSDate.UTC 2024 1 2 0 0 0 /\
  Route.checkRateLimit (toRoute dbFresh []) (JSDate.UTC 2024 1 2 0 0 1) "alice" = true.
Proof. repeat split; vm_compute; reflexivity. Qed.

(** ** The two revisions of the gate side by side *)

Lemma privileged_toRoute (db : Queries.DB) (cs : list Route.chats.Row) (u : string) :
  privileged (toRoute db cs) u = Queries.isUserAdmin db u.
Proof.
  unfold privileged, Route.findUser, Queries.isUserAdmin, toRoute.
  cbn [Route.users]. induction (Queries.users db) as [|x l IH]; [reflexivity|].
  cbn [map find filter Route.users.id].
  destruct (Queries.users.id x =? u)%string; [reflexivity | exact IH].
Qed.

Lemma count_toRoute (db : Queries.DB) (cs : list Route.chats.Row) (u : string) (since : Z) :
  countWhere (Route.inWindow u since) (Route.requests (toRoute db cs)) =
  countWhere (Queries.inWindow u since) (Queries.userRequests db).
Proof.
  unfold toRoute, countWhere. cbn [Route.requests]. f_equal.
  induction (Queries.userRequests db) as [|x l IH]; [reflexivity|].
  cbn [map filter]. unfold Route.inWindow at 1, Queries.inWindow at 1.
  cbn [Route.requests.userId Route.requests.timestamp].
  destruct (_ && _)%bool; cbn [List.length]; now rewrite IH.
Qed.

(** X7. On a server whose local time is UTC the two gates take the same
    admission decision. *)
Lemma gates_agree_when_server_in_UTC
    (db : Queries.DB) (cs : list Route.chats.Row) (now : Z) (u : string) :
  Route.checkRateLimit (toRoute db cs) now u =
  Queries.allowed (Queries.checkRateLimit 0 db now u).
Proof.
  destruct (Queries.isUserAdmin db u) eqn:Hadm.
  - rewrite Route_checkRateLimit_privileged by (now rewrite privileged_toRoute).
    unfold Queries.checkRateLimit. now rewrite Hadm.
  - rewrite Route_checkRateLimit_limited by (now rewrite privileged_toRoute).
    rewrite (checkRateLimit_limited 0 db now u Hadm). cbv zeta.
    cbn [Queries.allowed]. rewrite getUserDailyRequestCount_count, setHours0_UTC.
    now rewrite count_toRoute.
Qed.

(** C9. The two gates disagree on a server in the zone UTC-01:00: for
    the same user, the same single usage row of 2024-01-01T23:59:59Z and
    the same instant 2024-01-02T00:00:01Z, [checkRateLimit] of
    [queries.ts] answers [allowed = false] and the handler's
    [checkRateLimit] answers [true]; both limits are 1. *)
Theorem C9_gates_disagree_off_UTC :
  Queries.DAILY_REQUEST_LIMIT = Route.REQUESTS_PER_DAY /\
  Queries.allowed
    (Queries.checkRateLimit (-3600000) dbFresh (JSDate.UTC 2024 1 2 0 0 1) "alice")
  = false /\
  Route.checkRateLimit (toRoute dbFresh []) (JSDate.UTC 2024 1 2 0 0 1) "alice" = true.
Proof. repeat split. Qed.

(** ** The route handler *)

Section HandlerFacts.

Variable upsertChat : Route.DB -> Route.UpsertChat.Args -> Route.DB.

Lemma POST_unauthorized (session : option Route.Session.t) (body : Route.Body.t)
    (tCheck tRecord : Z) (uuid : string) (db : Route.DB) :
  Route.sessionUser session = None ->
  Route.run (Route.POST upsertChat session body tCheck tRecord uuid) db =
  (Route.TextResponse "Unauthorized" 401, db).
Proof. intros H. unfold Route.POST. rewrite H. reflexivity. Qed.

Lemma POST_rate_limited (session : option Route.Session.t) (body : Route.Body.t)
    (tCheck tRecord : Z) (uuid : string) (db : Route.DB) (su : Route.Session.User) :
  Route.sessionUser session = Some su ->
  Route.checkRateLimit db tCheck (Route.Session.id su) = false ->
  Route.run (Route.POST upsertChat session body tCheck tRecord uuid) db =
  (Route.TextResponse "Rate limit exceeded" 429, db).
Proof.
  intros Hs Hc. unfold Route.POST, Route.run, Route.bind, Route.query.
  rewrite Hs, Hc. reflexivity.
Qed.

(** Once the check has passed, the usage row is written first and every
    later exit of the handler starts from that database. *)
Lemma POST_admitted (session : option Route.Session.t) (body : Route.Body.t)
    (tCheck tRecord : Z) (uuid : string) (db : Route.DB) (su : Route.Session.User) :
  Route.sessionUser session = Some su ->
  Route.checkRateLimit db tCheck (Route.Session.id su) = true ->
  let db1 := Route.recordRequest db tRecord (Route.Session.id su) in
  let messages := Route.Body.messages body in
  Route.run (Route.POST upsertChat session body tCheck tRecord uuid) db =
  match messages with
  | [] => (Route.TextResponse "No messages provided" 400, db1)
  | _ :: _ =>
    if Route.falsyString (Route.Body.chatId body) then
      (Route.DataStreamResponse true uuid messages,
       upsertChat db1
         {| Route.UpsertChat.userId := Route.Session.id su;
            Route.UpsertChat.chatId := uuid;
            Route.UpsertChat.title := Route.chatTitle messages;
            Route.UpsertChat.messages := messages |})
    else
      let currentChatId := match Route.Body.chatId body with
                           | Some c => c
                           | None => EmptyString
                           end in
      match find (fun c => (Route.chats.id c =? currentChatId)%string) (Route.chats db) with
      | None => (Route.TextResponse "Chat not found or unauthorized" 404, db1)
      | Some c =>
        if (Route.chats.userId c =? Route.Session.id su)%string then
          (Route.DataStreamResponse false currentChatId messages, db1)
        else (Route.TextResponse "Chat not found or unauthorized" 404, db1)
      end
  end.
Proof.
  intros Hs Hc db1 messages.
  unfold Route.POST, Route.run, Route.bind, Route.query, Route.exec, Route.respond, Route.ret.
  rewrite Hs, Hc. cbn [negb]. fold db1. fold messages.
  destruct messages as [|m ms]; [reflexivity|]. cbn [List.length Nat.eqb].
  destruct (Route.falsyString (Route.Body.chatId body)); [reflexivity|].
  cbn [Route.chats Route.recordRequest db1].
  destruct (find _ (Route.chats db)) as [c|]; [|reflexivity].
  destruct (Route.chats.userId c =? Route.Session.id su)%string; reflexivity.
Qed.

Lemma POST_admitted_requests (session : option Route.Session.t) (body : Route.Body.t)
    (tCheck tRecord : Z) (uuid : string) (db : Route.DB) (su : Route.Session.User) :
  (forall d a, Route.requests (upsertChat d a) = Route.requests d) ->
  Route.sessionUser session = Some su ->
  Route.checkRateLimit db tCheck (Route.Session.id su) = true ->
  Route.requests (snd (Route.run (Route.POST upsertChat session body tCheck tRecord uuid) db)) =
  Route.requests (Route.recordRequest db tRecord (Route.Session.id su)).
Proof.
  intros Hup Hs Hc. rewrite (POST_admitted session body tCheck tRecord uuid db su Hs Hc).
  cbv zeta. destruct (Route.Body.messages body); [reflexivity|].
  destruct (Route.falsyString _); [apply Hup|].
  destruct (find _ _) as [c|]; [|reflexivity].
  destruct (_ =? _)%string; reflexivity.
Qed.

End HandlerFacts.

Lemma check_then_add_within_limit
    (tza : Z) (db : Queries.DB) (t1 t2 t3 : Z) (u : string) :
  Queries.isUserAdmin db u = false ->
  Queries.allowed (Queries.checkRateLimit tza db t1 u) = true ->
  t1 <= t3 ->
  Queries.getUserDailyRequestCount tza (Queries.addUserRequest db t2 u) t3 u
  <= Queries.DAILY_REQUEST_LIMIT.
Proof.
  intros Hadm Hok Ht.
  rewrite (checkRateLimit_limited tza db t1 u Hadm) in Hok. cbv zeta in Hok.
  cbn [Queries.allowed] in Hok. apply Z.ltb_lt in Hok.
  pose proof (getUserDailyRequestCount_later tza db t1 t3 u Ht) as Hle.
  rewrite getUserDailyRequestCount_count, addUserRequest_count.
  rewrite <- getUserDailyRequestCount_count.
  destruct (_ && _)%bool; lia.
Qed.

Lemma check_then_record_within_limit (db : Route.DB) (t1 t2 t3 : Z) (u : string) :
  privileged db u = false ->
  Route.checkRateLimit db t1 u = true ->
  t1 <= t3 ->
  countWhere (Route.inWindow u (JSDate.setUTCHours0 t3))
    (Route.requests (Route.recordRequest db t2 u))
  <= Route.REQUESTS_PER_DAY.
Proof.
  intros Hp Hok Ht.
  rewrite (Route_checkRateLimit_limited db t1 u Hp) in Hok. apply Z.ltb_lt in Hok.
  assert (Hle : countWhere (Route.inWindow u (JSDate.setUTCHours0 t3)) (Route.requests db)
                <= countWhere (Route.inWindow u (JSDate.setUTCHours0 t1)) (Route.requests db)).
  { apply countWhere_weaken. intros r. apply Route_inWindow_later.
    now apply setUTCHours0_mono. }
  rewrite recordRequest_count. destruct (_ && _)%bool; lia.
Qed.

(** C4. For a user who is not an administrator, when [checkRateLimit]
    has answered [allowed] and the usage row has then been written with
    nothing else written for that user in between, the number of the
    user's rows in the day window of any later instant is at most the
    limit.  This holds for [checkRateLimit] then [addUserRequest] of
    [queries.ts], for the handler's [checkRateLimit] then
    [recordRequest], and for every run of [POST] that is not answered
    with 401 or 429, provided [upsertChat] leaves the usage rows alone. *)
Theorem C4_check_then_record_within_limit :
  (forall (tza : Z) (db : Queries.DB) (t1 t2 t3 : Z) (u : string),
     Queries.isUserAdmin db u = false ->
     Queries.allowed (Queries.checkRateLimit tza db t1 u) = true ->
     t1 <= t3 ->
     countWhere
       (fun r => (Queries.userRequests.userId r =? u)%string
                 && (JSDate.setHours0 tza t3 <=? Queries.userRequests.createdAt r))
       (Queries.userRequests (Queries.addUserRequest db t2 u))
     <= Queries.DAILY_REQUEST_LIMIT) /\
  (forall (db : Route.DB) (t1 t2 t3 : Z) (u : string),
     privileged db u = false ->
     Route.checkRateLimit db t1 u = true ->
     t1 <= t3 ->
     countWhere
       (fun r => (Route.requests.userId r =? u)%string
                 && (JSDate.setUTCHours0 t3 <=? Route.requests.timestamp r))
       (Route.requests (Route.recordRequest db t2 u))
     <= Route.REQUESTS_PER_DAY) /\
  (forall (upsertChat : Route.DB -> Route.UpsertChat.Args -> Route.DB)
          (session : option Route.Session.t) (body : Route.Body.t)
          (tCheck tRecord t3 : Z) (uuid : string) (db : Route.DB)
          (su : Route.Session.User),
     (forall d a, Route.requests (upsertChat d a) = Route.requests d) ->
     Route.sessionUser session = Some su ->
     privileged db (Route.Session.id su) = false ->
     Route.status
       (fst (Route.run (Route.POST upsertChat session body tCheck tRecord uuid) db)) <> 429 ->
     tCheck <= t3 ->
     countWhere
       (fun r => (Route.requests.userId r =? Route.Session.id su)%string
                 && (JSDate.setUTCHours0 t3 <=? Route.requests.timestamp r))
       (Route.requests
          (snd (Route.run (Route.POST upsertChat session body tCheck tRecord uuid) db)))
     <= Route.REQUESTS_PER_DAY).
Proof.
  split; [|split].
  - intros tza db t1 t2 t3 u Hadm Hok Ht.
    pose proof (check_then_add_within_limit tza db t1 t2 t3 u Hadm Hok Ht) as H.
    rewrite getUserDailyRequestCount_count in H. exact H.
  - intros db t1 t2 t3 u Hp Hok Ht.
    exact (check_then_record_within_limit db t1 t2 t3 u Hp Hok Ht).
  - intros upsertChat session body tCheck tRecord t3 uuid db su Hup Hs Hp Hst Ht.
    destruct (Route.checkRateLimit db tCheck (Route.Session.id su)) eqn:Hc.
    + rewrite (POST_admitted_requests upsertChat session body tCheck tRecord uuid db su
                 Hup Hs Hc).
      exact (check_then_record_within_limit db tCheck tRecord t3 _ Hp Hc Ht).
    + rewrite (POST_rate_limited upsertChat session body tCheck tRecord uuid db su Hs Hc)
        in Hst.
      now elim Hst.
Qed.

Lemma C4_witness :
  Route.status
    (fst (Route.run (Route.POST upsertChatRow sessAlice bodyNewChat
                       (JSDate.UTC 2024 1 2 0 0 1) (JSDate.UTC 2024 1 2 0 0 2) "c2")
            rdb)) = 200 /\
  countWhere
    (fun r => (Route.requests.userId r =? "alice")%string
              && (JSDate.setUTCHours0 (JSDate.UTC 2024 1 2 12 0 0)
                  <=? Route.requests.timestamp r))
    (Route.requests
       (snd (Route.run (Route.POST upsertChatRow sessAlice bodyNewChat
                          (JSDate.UTC 2024 1 2 0 0 1) (JSDate.UTC 2024 1 2 0 0 2) "c2")
               rdb)))
  <= Route.REQUESTS_PER_DAY.
Proof.
  split; [reflexivity|].
  refine (proj2 (proj2 C4_check_then_record_within_limit) upsertChatRow sessAlice
            bodyNewChat (JSDate.UTC 2024 1 2 0 0 1) (JSDate.UTC 2024 1 2 0 0 2)
            (JSDate.UTC 2024 1 2 12 0 0) "c2"%string rdb
            {| Route.Session.id := "alice" |} _ eq_refl eq_refl _ _).
  - intros d a. reflexivity.
  - vm_compute. discriminate.
  - vm_compute. discriminate.
Defined.

(** C8. When the check has passed, [POST] writes the usage row before it
    looks at the body: a request without messages is answered with 400,
    and a request naming a chat that is absent or owned by someone else
    is answered with 404, and in both cases the database left behind is
    the one with the new usage row.  A count for the user over a UTC day
    window that contains the insert is one more than before, and a
    limited user is refused for the rest of that UTC day. *)
Theorem C8_usage_recorded_before_validation
    (upsertChat : Route.DB -> Route.UpsertChat.Args -> Route.DB)
    (session : option Route.Session.t) (body : Route.Body.t)
    (tCheck tRecord : Z) (uuid : string) (db : Route.DB) (su : Route.Session.User) :
  Route.sessionUser session = Some su ->
  Route.checkRateLimit db tCheck (Route.Session.id su) = true ->
  let db1 := Route.recordRequest db tRecord (Route.Session.id su) in
  let out := Route.run (Route.POST upsertChat session body tCheck tRecord uuid) db in
  (Route.Body.messages body = [] ->
     out = (Route.TextResponse "No messages provided" 400, db1)) /\
  (forall c : string,
     Route.Body.messages body <> [] ->
     Route.Body.chatId body = Some c -> c <> EmptyString ->
     (forall ch, find (fun x => (Route.chats.id x =? c)%string) (Route.chats db) = Some ch ->
                 Route.chats.userId ch <> Route.Session.id su) ->
     out = (Route.TextResponse "Chat not found or unauthorized" 404, db1)) /\
  Route.requests db1 =
    Route.requests db ++ [ {| Route.requests.userId := Route.Session.id su;
                              Route.requests.timestamp := tRecord |} ] /\
  (forall t : Z, JSDate.setUTCHours0 t <= tRecord ->
     countWhere (Route.inWindow (Route.Session.id su) (JSDate.setUTCHours0 t))
       (Route.requests db1) =
     countWhere (Route.inWindow (Route.Session.id su) (JSDate.setUTCHours0 t))
       (Route.requests db) + 1) /\
  (privileged db (Route.Session.id su) = false ->
   forall t : Z, JSDate.setUTCHours0 t <= tRecord ->
     Route.checkRateLimit db1 t (Route.Session.id su) = false).
Proof.
  intros Hs Hc db1 out.
  pose proof (POST_admitted upsertChat session body tCheck tRecord uuid db su Hs Hc) as Hrun.
  cbv zeta in Hrun. fold db1 in Hrun. fold out in Hrun.
  assert (Hcount : forall t : Z, JSDate.setUTCHours0 t <= tRecord ->
     countWhere (Route.inWindow (Route.Session.id su) (JSDate.setUTCHours0 t))
       (Route.requests db1) =
     countWhere (Route.inWindow (Route.Session.id su) (JSDate.setUTCHours0 t))
       (Route.requests db) + 1).
  { intros t Hw. unfold db1. rewrite recordRequest_count, String.eqb_refl.
    apply Z.leb_le in Hw. rewrite Hw. reflexivity. }
  split; [|split; [|split; [|split]]].
  - intros Hm. rewrite Hm in Hrun. exact Hrun.
  - intros c Hm Hid Hne Hown.
    destruct (Route.Body.messages body) as [|m ms]; [congruence|].
    rewrite Hid in Hrun. destruct c as [|a c']; [congruence|].
    cbn [Route.falsyString] in Hrun. rewrite Hrun.
    destruct (find _ _) as [ch|] eqn:Hf; [|reflexivity].
    specialize (Hown ch eq_refl). apply String.eqb_neq in Hown. rewrite Hown.
    reflexivity.
  - reflexivity.
  - exact Hcount.
  - intros Hp t Hw.
    assert (Hp1 : privileged db1 (Route.Session.id su) = false) by exact Hp.
    rewrite (Route_checkRateLimit_limited db1 t _ Hp1), (Hcount t Hw).
    apply Z.ltb_ge.
    pose proof (countWhere_nonneg
                  (Route.inWindow (Route.Session.id su) (JSDate.setUTCHours0 t))
                  (Route.requests db)).
    unfold Route.REQUESTS_PER_DAY. lia.
Qed.

Lemma C8_witness :
  Route.run (Route.POST upsertChatRow sessAlice bodyEmpty
               (JSDate.UTC 2024 1 2 0 0 1) (JSDate.UTC 2024 1 2 0 0 2) "c2") rdb =
    (Route.TextResponse "No messages provided" 400,
     Route.recordRequest rdb (JSDate.UTC 2024 1 2 0 0 2) "alice") /\
  Route.run (Route.POST upsertChatRow sessAlice bodyForeignChat
               (JSDate.UTC 2024 1 2 0 0 1) (JSDate.UTC 2024 1 2 0 0 2) "c2") rdb =
    (Route.TextResponse "Chat not found or unauthorized" 404,
     Route.recordRequest rdb (JSDate.UTC 2024 1 2 0 0 2) "alice") /\
  Route.checkRateLimit (Route.recordRequest rdb (JSDate.UTC 2024 1 2 0 0 2) "alice")
    (JSDate.UTC 2024 1 2 12 0 0) "alice" = false.
Proof.
  split; [|split].
  - exact (proj1 (C8_usage_recorded_before_validation upsertChatRow sessAlice bodyEmpty
                    (JSDate.UTC 2024 1 2 0 0 1) (JSDate.UTC 2024 1 2 0 0 2) "c2" rdb
                    {| Route.Session.id := "alice" |} eq_refl eq_refl) eq_refl).
  - refine (proj1 (proj2 (C8_usage_recorded_before_validation upsertChatRow sessAlice
                    bodyForeignChat
                    (JSDate.UTC 2024 1 2 0 0 1) (JSDate.UTC 2024 1 2 0 0 2) "c2" rdb
                    {| Route.Session.id := "alice" |} eq_refl eq_refl))
             "c1"%string _ eq_refl _ _).
    + discriminate.
    + discriminate.
    + intros ch Hf. vm_compute in Hf. injection Hf as <-. discriminate.
  - refine (proj2 (proj2 (proj2 (proj2 (C8_usage_recorded_before_validation upsertChatRow
                    sessAlice bodyEmpty
                    (JSDate.UTC 2024 1 2 0 0 1) (JSDate.UTC 2024 1 2 0 0 2) "c2" rdb
                    {| Route.Session.id := "alice" |} eq_refl eq_refl))))
             eq_refl (JSDate.UTC 2024 1 2 12 0 0) _).
    vm_compute. discriminate.
Defined.

(** * Further properties of the code *)

(** ** Shape of the decision of [queries.ts] *)

(** X1. For every user, administrator or not, the decision is consistent:
    [allowed] holds exactly when [remaining] is not 0, and [remaining]
    is either the sentinel -1 or lies between 0 and the limit. *)
Theorem decision_allowed_iff_remaining_nonzero
    (tza : Z) (db : Queries.DB) (now : Z) (u : string) :
  let d := Queries.checkRateLimit tza db now u in
  Queries.allowed d = negb (Queries.remaining d =? 0) /\
  (Queries.remaining d = -1 /\ Queries.limit d = -1 /\ Queries.isUserAdmin db u = true
   \/ 0 <= Queries.remaining d <= Queries.limit d /\ Queries.isUserAdmin db u = false).
Proof.
  cbv zeta. destruct (Queries.isUserAdmin db u) eqn:Hadm.
  - unfold Queries.checkRateLimit. rewrite Hadm. cbn. split; [reflexivity|].
    left. repeat split.
  - rewrite (checkRateLimit_limited tza db now u Hadm). cbv zeta.
    cbn [Queries.allowed Queries.remaining Queries.limit].
    pose proof (getUserDailyRequestCount_nonneg tza db now u) as Hn.
    unfold Queries.DAILY_REQUEST_LIMIT. split.
    + destruct (Z.ltb_spec (Queries.getUserDailyRequestCount tza db now u) 1);
        destruct (Z.eqb_spec (Z.max 0 (1 - Queries.getUserDailyRequestCount tza db now u)) 0);
        cbn [negb]; try reflexivity; lia.
    + right. split; [lia | reflexivity].
Qed.

Lemma checkRateLimit_by_count (tza : Z) (db db' : Queries.DB) (now : Z) (u : string) :
  Queries.users db' = Queries.users db ->
  Queries.getUserDailyRequestCount tza db' now u =
    Queries.getUserDailyRequestCount tza db now u ->
  Queries.checkRateLimit tza db' now u = Queries.checkRateLimit tza db now u.
Proof.
  intros Hu Hc. unfold Queries.checkRateLimit.
  rewrite (isUserAdmin_users db db' u Hu), Hc. reflexivity.
Qed.

Lemma Route_checkRateLimit_by_count (db db' : Route.DB) (now : Z) (u : string) :
  Route.users db' = Route.users db ->
  countWhere (Route.inWindow u (JSDate.setUTCHours0 now)) (Route.requests db') =
    countWhere (Route.inWindow u (JSDate.setUTCHours0 now)) (Route.requests db) ->
  Route.checkRateLimit db' now u = Route.checkRateLimit db now u.
Proof.
  intros Hu Hc. unfold Route.checkRateLimit, Route.findUser, Route.selectCount.
  rewrite Hu. cbn [Route.firstCount Route.count nullishZero]. rewrite Hc. reflexivity.
Qed.

(** ** Usage of one user and the decision for another *)

(** X2. A usage row written for one user changes nothing for any other
    user: the decision of [queries.ts] and the answer of the handler's
    gate are the same before and after, at every instant. *)
Theorem usage_of_another_user_is_ignored :
  (forall (tza : Z) (db : Queries.DB) (t now : Z) (u v : string),
     v <> u ->
     Queries.checkRateLimit tza (Queries.addUserRequest db t v) now u =
     Queries.checkRateLimit tza db now u) /\
  (forall (db : Route.DB) (t now : Z) (u v : string),
     v <> u ->
     Route.checkRateLimit (Route.recordRequest db t v) now u =
     Route.checkRateLimit db now u).
Proof.
  split.
  - intros tza db t now u v Hv. apply checkRateLimit_by_count; [reflexivity|].
    rewrite !getUserDailyRequestCount_count, addUserRequest_count.
    destruct (String.eqb_spec v u) as [->|_]; [congruence|]. cbn. lia.
  - intros db t now u v Hv. apply Route_checkRateLimit_by_count; [reflexivity|].
    rewrite recordRequest_count.
    destruct (String.eqb_spec v u) as [->|_]; [congruence|]. cbn. lia.
Qed.

Lemma usage_of_another_user_is_ignored_witness :
  Queries.checkRateLimit 0
    (Queries.addUserRequest dbFresh (JSDate.UTC 2024 1 2 9 0 0) "bob")
    (JSDate.UTC 2024 1 2 10 0 0) "alice" =
  Queries.checkRateLimit 0 dbFresh (JSDate.UTC 2024 1 2 10 0 0) "alice" /\
  Route.checkRateLimit (Route.recordRequest rdb (JSDate.UTC 2024 1 2 9 0 0) "bob")
    (JSDate.UTC 2024 1 2 10 0 0) "alice" =
  Route.checkRateLimit rdb (JSDate.UTC 2024 1 2 10 0 0) "alice".
Proof.
  split.
  - apply (proj1 usage_of_another_user_is_ignored). discriminate.
  - apply (proj2 usage_of_another_user_is_ignored). discriminate.
Defined.

(** ** Writing a usage row never re-opens the gate *)

(** X3. Whatever row is written, for whichever user and instant, a check at
    a fixed instant afterwards has the same limit, a [remaining] that is
    not larger, and is allowed only if it was allowed before; likewise
    the handler's gate answers [true] after the write only if it did
    before. *)
Theorem recording_never_reopens_the_gate :
  (forall (tza : Z) (db : Queries.DB) (t now : Z) (u v : string),
     let d0 := Queries.checkRateLimit tza db now u in
     let d1 := Queries.checkRateLimit tza (Queries.addUserRequest db t v) now u in
     Queries.limit d1 = Queries.limit d0 /\
     Queries.remaining d1 <= Queries.remaining d0 /\
     implb (Queries.allowed d1) (Queries.allowed d0) = true) /\
  (forall (db : Route.DB) (t now : Z) (u v : string),
     implb (Route.checkRateLimit (Route.recordRequest db t v) now u)
           (Route.checkRateLimit db now u) = true).
Proof.
  split.
  - intros tza db t now u v. cbv zeta.
    unfold Queries.checkRateLimit.
    rewrite (isUserAdmin_users db (Queries.addUserRequest db t v) u eq_refl).
    destruct (Queries.isUserAdmin db u); [cbn; repeat split; lia|].
    cbn [Queries.limit Queries.remaining Queries.allowed].
    rewrite !getUserDailyRequestCount_count, addUserRequest_count.
    set (n := countWhere _ (Queries.userRequests db)).
    unfold Queries.DAILY_REQUEST_LIMIT. split; [reflexivity|].
    destruct (_ && _)%bool; split; lia.
  - intros db t now u v. unfold Route.checkRateLimit, Route.findUser, Route.selectCount.
    cbn [Route.users Route.recordRequest Route.firstCount Route.count nullishZero].
    destruct (truthy _); [reflexivity|].
    change (Route.requests db ++ _) with (Route.requests (Route.recordRequest db t v)).
    rewrite recordRequest_count.
    set (n := countWhere _ (Route.requests db)). unfold Route.REQUESTS_PER_DAY.
    destruct (_ && _)%bool; lia.
Qed.

(** ** How far back the day window reaches *)




(** ** Several usages in a row *)

Lemma addUserRequests_users (ts : list Z) (db : Queries.DB) (u : string) :
  Queries.users (addUserRequests db ts u) = Queries.users db.
Proof.
  unfold addUserRequests. revert db.
  induction ts as [|t ts IH]; intros db; [reflexivity|].
  cbn [fold_left]. rewrite IH. reflexivity.
Qed.

(** X5. Usage rows written one after the other add up: when every one of the
    [k] instants lies in the window of the check, the daily count is the
    earlier count plus [k], the users table is untouched, and a user who
    is not an administrator is refused as soon as [k] is not 0. *)
Theorem usages_add_up (tza : Z) (ts : list Z) (db : Queries.DB) (now : Z) (u : string) :
  Forall (fun t => JSDate.setHours0 tza now <= t) ts ->
  Queries.getUserDailyRequestCount tza (addUserRequests db ts u) now u =
    Queries.getUserDailyRequestCount tza db now u + Z.of_nat (List.length ts) /\
  Queries.users (addUserRequests db ts u) = Queries.users db /\
  (Queries.isUserAdmin db u = false -> ts <> [] ->
   Queries.checkRateLimit tza (addUserRequests db ts u) now u =
   {| Queries.allowed := false; Queries.remaining := 0; Queries.limit := 1 |}).
Proof.
  intros Hts.
  assert (Hcount : Queries.getUserDailyRequestCount tza (addUserRequests db ts u) now u =
    Queries.getUserDailyRequestCount tza db now u + Z.of_nat (List.length ts)).
  { unfold addUserRequests. revert db.
    induction Hts as [|t ts Ht Hts IH]; intros db; [cbn; lia|].
    cbn [fold_left List.length]. rewrite IH.
    rewrite (getUserDailyRequestCount_add tza db t now u Ht). lia. }
  split; [exact Hcount|]. split; [apply addUserRequests_users|].
  intros Hadm Hne.
  assert (Hadm' : Queries.isUserAdmin (addUserRequests db ts u) u = false)
    by (rewrite (isUserAdmin_users db _ u (addUserRequests_users ts db u)); exact Hadm).
  rewrite (checkRateLimit_limited tza _ now u Hadm'). cbv zeta. rewrite Hcount.
  pose proof (getUserDailyRequestCount_nonneg tza db now u) as Hn.
  assert (Hk : 0 < Z.of_nat (List.length ts)) by (destruct ts; [congruence | cbn; lia]).
  unfold Queries.DAILY_REQUEST_LIMIT. f_equal; lia.
Qed.

Lemma usages_add_up_witness :
  Queries.getUserDailyRequestCount 0
    (addUserRequests dbFresh
       [JSDate.UTC 2024 1 2 8 0 0; JSDate.UTC 2024 1 2 9 0 0; JSDate.UTC 2024 1 2 9 30 0]
       "alice")
    (JSDate.UTC 2024 1 2 10 0 0) "alice" =
  Queries.getUserDailyRequestCount 0 dbFresh (JSDate.UTC 2024 1 2 10 0 0) "alice" + 3.
Proof.
  refine (proj1 (usages_add_up 0
    [JSDate.UTC 2024 1 2 8 0 0; JSDate.UTC 2024 1 2 9 0 0; JSDate.UTC 2024 1 2 9 30 0]
    dbFresh (JSDate.UTC 2024 1 2 10 0 0) "alice" _)).
  repeat constructor; vm_compute; discriminate.
Defined.

(** ** The UTC day of the handler's gate *)

Lemma Route_previous_UTC_day_not_counted_witness :
  privileged rdb "alice" = false /\
  Route.checkRateLimit rdb (JSDate.UTC 2024 1 2 0 0 1) "alice" = true.
Proof.
  split; [reflexivity|].
  refine (proj2 (Route_previous_UTC_day_not_counted rdb (JSDate.UTC 2024 1 2 0 0 1)
                   "alice" eq_refl _)).
  intros r [<-|[]] _. vm_compute. reflexivity.
Defined.

(** ** Exits of the route handler *)

Lemma Route_checkRateLimit_frame (db db' : Route.DB) (now : Z) (u : string) :
  Route.users db' = Route.users db ->
  Route.requests db' = Route.requests db ->
  Route.checkRateLimit db' now u = Route.checkRateLimit db now u.
Proof.
  intros Hu Hr. apply Route_checkRateLimit_by_count; [exact Hu|]. now rewrite Hr.
Qed.

Lemma recordRequest_closes_gate (db : Route.DB) (tRecord t : Z) (u : string) :
  privileged db u = false ->
  JSDate.setUTCHours0 t <= tRecord ->
  Route.checkRateLimit (Route.recordRequest db tRecord u) t u = false.
Proof.
  intros Hp Hw.
  assert (Hp1 : privileged (Route.recordRequest db tRecord u) u = false) by exact Hp.
  rewrite (Route_checkRateLimit_limited _ t u Hp1), recordRequest_count, String.eqb_refl.
  apply Z.leb_le in Hw. rewrite Hw. cbn [andb].
  pose proof (countWhere_nonneg (Route.inWindow u (JSDate.setUTCHours0 t)) (Route.requests db)).
  unfold Route.REQUESTS_PER_DAY. lia.
Qed.

Lemma snoc_neq {A : Type} (l : list A) (x : A) : l ++ [x] <> l.
Proof.
  intros H. apply (f_equal (@List.length A)) in H.
  rewrite length_app in H. cbn in H. lia.
Qed.

Section HandlerExits.

Variable upsertChat : Route.DB -> Route.UpsertChat.Args -> Route.DB.

Lemma POST_admitted_status (session : option Route.Session.t) (body : Route.Body.t)
    (tCheck tRecord : Z) (uuid : string) (db : Route.DB) (su : Route.Session.User) :
  Route.sessionUser session = Some su ->
  Route.checkRateLimit db tCheck (Route.Session.id su) = true ->
  let st := Route.status
              (fst (Route.run (Route.POST upsertChat session body tCheck tRecord uuid) db)) in
  st = 400 \/ st = 404 \/ st = 200.
Proof.
  intros Hs Hc. cbv zeta.
  rewrite (POST_admitted upsertChat session body tCheck tRecord uuid db su Hs Hc).
  cbv zeta. destruct (Route.Body.messages body); [now left|].
  destruct (Route.falsyString _); [now right; right|].
  destruct (find _ _) as [c|]; [|now right; left].
  destruct (_ =? _)%string; [now right; right | now right; left].
Qed.

Lemma last_nth_error {A : Type} (l : list A) (x d : A) :
  nth_error (l ++ [x]) (List.length (l ++ [x]) - 1) = Some x /\ last (l ++ [x]) d = x.
Proof.
  split; [|apply last_last].
  rewrite length_app. cbn [List.length].
  replace (List.length l + 1 - 1)%nat with (List.length l) by lia.
  rewrite nth_error_app2 by lia. rewrite Nat.sub_diag. reflexivity.
Qed.

End HandlerExits.

(** X8. The handler leaves the database as it found it exactly when it
    answers 401 or 429: a request that is not authenticated or is refused
    by the gate writes nothing, every other request has written its usage
    row ([upsertChat] is assumed to leave the usage rows alone). *)
Theorem POST_leaves_database_iff_refused
    (upsertChat : Route.DB -> Route.UpsertChat.Args -> Route.DB)
    (session : option Route.Session.t) (body : Route.Body.t)
    (tCheck tRecord : Z) (uuid : string) (db : Route.DB) :
  (forall d a, Route.requests (upsertChat d a) = Route.requests d) ->
  let out := Route.run (Route.POST upsertChat session body tCheck tRecord uuid) db in
  snd out = db <-> Route.status (fst out) = 401 \/ Route.status (fst out) = 429.
Proof.
  intros Hup out. subst out.
  destruct (Route.sessionUser session) as [su|] eqn:Hs.
  - destruct (Route.checkRateLimit db tCheck (Route.Session.id su)) eqn:Hc.
    + pose proof (POST_admitted_requests upsertChat session body tCheck tRecord uuid db su
                    Hup Hs Hc) as Hreq.
      pose proof (POST_admitted_status upsertChat session body tCheck tRecord uuid db su
                    Hs Hc) as Hst.
      cbv zeta in Hst. split.
      * intros Heq. rewrite Heq in Hreq. cbn [Route.requests Route.recordRequest] in Hreq.
        symmetry in Hreq. now apply snoc_neq in Hreq.
      * intros [H|H]; rewrite H in Hst; destruct Hst as [?|[?|?]]; discriminate.
    + rewrite (POST_rate_limited upsertChat session body tCheck tRecord uuid db su Hs Hc).
      cbn. split; [now right | reflexivity].
  - rewrite (POST_unauthorized upsertChat session body tCheck tRecord uuid db Hs).
    cbn. split; [now left | reflexivity].
Qed.

Lemma POST_leaves_database_iff_refused_witness :
  snd (Route.run (Route.POST upsertChatRow sessAlice bodyNewChat
                    (JSDate.UTC 2024 1 2 0 0 1) (JSDate.UTC 2024 1 2 0 0 2) "c2") rdb)
  <> rdb.
Proof.
  intros H.
  apply (POST_leaves_database_iff_refused upsertChatRow sessAlice bodyNewChat
           (JSDate.UTC 2024 1 2 0 0 1) (JSDate.UTC 2024 1 2 0 0 2) "c2" rdb
           (fun d a => eq_refl)) in H.
  destruct H as [H|H]; vm_compute in H; discriminate.
Defined.

(** X9. The handler continues an existing chat only for its owner: when the
    response is a data stream that is not a new chat, the body named that
    chat, a row with that id is stored, the first such row belongs to the
    session user, and the only write was the usage row. *)
Theorem POST_continues_only_own_chat
    (upsertChat : Route.DB -> Route.UpsertChat.Args -> Route.DB)
    (session : option Route.Session.t) (body : Route.Body.t)
    (tCheck tRecord : Z) (uuid : string) (db : Route.DB)
    (c : string) (msgs : list Route.Message) :
  fst (Route.run (Route.POST upsertChat session body tCheck tRecord uuid) db) =
    Route.DataStreamResponse false c msgs ->
  exists (su : Route.Session.User) (ch : Route.chats.Row),
    Route.sessionUser session = Some su /\
    Route.Body.chatId body = Some c /\ c <> EmptyString /\
    find (fun x => (Route.chats.id x =? c)%string) (Route.chats db) = Some ch /\
    In ch (Route.chats db) /\ Route.chats.id ch = c /\
    Route.chats.userId ch = Route.Session.id su /\
    msgs = Route.Body.messages body /\
    snd (Route.run (Route.POST upsertChat session body tCheck tRecord uuid) db) =
      Route.recordRequest db tRecord (Route.Session.id su).
Proof.
  intros Hout.
  destruct (Route.sessionUser session) as [su|] eqn:Hs;
    [|rewrite (POST_unauthorized upsertChat session body tCheck tRecord uuid db Hs) in Hout;
      discriminate].
  destruct (Route.checkRateLimit db tCheck (Route.Session.id su)) eqn:Hc;
    [|rewrite (POST_rate_limited upsertChat session body tCheck tRecord uuid db su Hs Hc)
        in Hout; discriminate].
  rewrite (POST_admitted upsertChat session body tCheck tRecord uuid db su Hs Hc) in *.
  cbv zeta in *.
  destruct (Route.Body.messages body) as [|m ms]; [discriminate|].
  destruct (Route.Body.chatId body) as [[|a c']|]; cbn [Route.falsyString] in *;
    try discriminate.
  destruct (find _ _) as [ch|] eqn:Hf; [|discriminate].
  destruct (Route.chats.userId ch =? Route.Session.id su)%string eqn:Hown; [|discriminate].
  cbn [fst snd] in *. injection Hout as <- <-.
  pose proof (find_some _ _ Hf) as [Hin Hid]. apply String.eqb_eq in Hid, Hown.
  exists su, ch. repeat split; try assumption; try reflexivity. discriminate.
Qed.

Lemma POST_continues_only_own_chat_witness :
  exists (su : Route.Session.User) (ch : Route.chats.Row),
    Route.sessionUser sessRoot = Some su /\
    Route.Body.chatId bodyOwnChat = Some "c9"%string /\ "c9"%string <> EmptyString /\
    find (fun x => (Route.chats.id x =? "c9")%string) (Route.chats rdbAdmin) = Some ch /\
    In ch (Route.chats rdbAdmin) /\ Route.chats.id ch = "c9"%string /\
    Route.chats.userId ch = Route.Session.id su /\
    [hello] = Route.Body.messages bodyOwnChat /\
    snd (Route.run (Route.POST upsertChatRow sessRoot bodyOwnChat
                      (JSDate.UTC 2024 1 2 9 0 0) (JSDate.UTC 2024 1 2 9 0 1) "c2")
           rdbAdmin) =
      Route.recordRequest rdbAdmin (JSDate.UTC 2024 1 2 9 0 1) (Route.Session.id su).
Proof.
  exact (POST_continues_only_own_chat upsertChatRow sessRoot bodyOwnChat
           (JSDate.UTC 2024 1 2 9 0 0) (JSDate.UTC 2024 1 2 9 0 1) "c2" rdbAdmin
           "c9" [hello] eq_refl).
Defined.

(** X10. The chat announced on the stream is the chat that was stored: when
    the response announces [NEW_CHAT_CREATED] with an id, the body named
    no chat, the id is the fresh one, and the database left behind is the
    one with the usage row on which [upsertChat] was called for the
    session user with that id, the title of the last message and the
    messages of the body.  No other response announces anything. *)
Theorem POST_announced_chat_is_stored
    (upsertChat : Route.DB -> Route.UpsertChat.Args -> Route.DB)
    (session : option Route.Session.t) (body : Route.Body.t)
    (tCheck tRecord : Z) (uuid : string) (db : Route.DB) (c : string) :
  let out := Route.run (Route.POST upsertChat session body tCheck tRecord uuid) db in
  In (Stream.NEW_CHAT_CREATED c) (announced (fst out)) ->
  exists su : Route.Session.User,
    Route.sessionUser session = Some su /\
    c = uuid /\
    Route.falsyString (Route.Body.chatId body) = true /\
    Route.Body.messages body <> [] /\
    announced (fst out) = [Stream.NEW_CHAT_CREATED c] /\
    fst out = Route.DataStreamResponse true c (Route.Body.messages body) /\
    snd out =
      upsertChat (Route.recordRequest db tRecord (Route.Session.id su))
        {| Route.UpsertChat.userId := Route.Session.id su;
           Route.UpsertChat.chatId := c;
           Route.UpsertChat.title := Route.chatTitle (Route.Body.messages body);
           Route.UpsertChat.messages := Route.Body.messages body |}.
Proof.
  intros out Hin. subst out.
  destruct (Route.sessionUser session) as [su|] eqn:Hs;
    [|rewrite (POST_unauthorized upsertChat session body tCheck tRecord uuid db Hs) in Hin;
      destruct Hin].
  destruct (Route.checkRateLimit db tCheck (Route.Session.id su)) eqn:Hc;
    [|rewrite (POST_rate_limited upsertChat session body tCheck tRecord uuid db su Hs Hc)
        in Hin; destruct Hin].
  rewrite (POST_admitted upsertChat session body tCheck tRecord uuid db su Hs Hc) in *.
  cbv zeta in *.
  destruct (Route.Body.messages body) as [|m ms]; [destruct Hin|].
  destruct (Route.falsyString (Route.Body.chatId body)) eqn:Hfalsy.
  - cbn in Hin. destruct Hin as [Heq|[]]. injection Heq as <-.
    exists su. repeat split. discriminate.
  - destruct (find _ _) as [ch|]; [|destruct Hin].
    destruct (_ =? _)%string; destruct Hin.
Qed.

Lemma POST_announced_chat_is_stored_witness :
  exists su : Route.Session.User,
    Route.sessionUser sessAlice = Some su /\
    "c2"%string = "c2"%string /\
    Route.falsyString (Route.Body.chatId bodyNewChat) = true /\
    Route.Body.messages bodyNewChat <> [] /\
    announced (fst (Route.run (Route.POST upsertChatRow sessAlice bodyNewChat
                                 (JSDate.UTC 2024 1 2 0 0 1) (JSDate.UTC 2024 1 2 0 0 2) "c2")
                      rdb)) = [Stream.NEW_CHAT_CREATED "c2"] /\
    fst (Route.run (Route.POST upsertChatRow sessAlice bodyNewChat
                      (JSDate.UTC 2024 1 2 0 0 1) (JSDate.UTC 2024 1 2 0 0 2) "c2") rdb) =
      Route.DataStreamResponse true "c2" (Route.Body.messages bodyNewChat) /\
    snd (Route.run (Route.POST upsertChatRow sessAlice bodyNewChat
                      (JSDate.UTC 2024 1 2 0 0 1) (JSDate.UTC 2024 1 2 0 0 2) "c2") rdb) =
      upsertChatRow
        (Route.recordRequest rdb (JSDate.UTC 2024 1 2 0 0 2) (Route.Session.id su))
        {| Route.UpsertChat.userId := Route.Session.id su;
           Route.UpsertChat.chatId := "c2";
           Route.UpsertChat.title := Route.chatTitle (Route.Body.messages bodyNewChat);
           Route.UpsertChat.messages := Route.Body.messages bodyNewChat |}.
Proof.
  exact (POST_announced_chat_is_stored upsertChatRow sessAlice bodyNewChat
           (JSDate.UTC 2024 1 2 0 0 1) (JSDate.UTC 2024 1 2 0 0 2) "c2" rdb "c2"
           (or_introl eq_refl)).
Defined.

(** X11. An administrator is never answered 429 by the handler, however many
    usage rows are stored, and each of the administrator's requests still
    writes its usage row ([upsertChat] is assumed to leave the usage rows
    alone). *)
Theorem POST_admin_never_limited_still_recorded
    (upsertChat : Route.DB -> Route.UpsertChat.Args -> Route.DB)
    (session : option Route.Session.t) (body : Route.Body.t)
    (tCheck tRecord : Z) (uuid : string) (db : Route.DB) (su : Route.Session.User) :
  (forall d a, Route.requests (upsertChat d a) = Route.requests d) ->
  Route.sessionUser session = Some su ->
  privileged db (Route.Session.id su) = true ->
  let out := Route.run (Route.POST upsertChat session body tCheck tRecord uuid) db in
  Route.status (fst out) <> 401 /\
  Route.status (fst out) <> 429 /\
  Route.requests (snd out) =
    Route.requests db ++ [ {| Route.requests.userId := Route.Session.id su;
                              Route.requests.timestamp := tRecord |} ].
Proof.
  intros Hup Hs Hp out. subst out.
  pose proof (Route_checkRateLimit_privileged db tCheck _ Hp) as Hc.
  pose proof (POST_admitted_status upsertChat session body tCheck tRecord uuid db su Hs Hc)
    as Hst. cbv zeta in Hst.
  split; [|split].
  - destruct Hst as [H|[H|H]]; rewrite H; discriminate.
  - destruct Hst as [H|[H|H]]; rewrite H; discriminate.
  - rewrite (POST_admitted_requests upsertChat session body tCheck tRecord uuid db su
               Hup Hs Hc). reflexivity.
Qed.

Lemma POST_admin_never_limited_still_recorded_witness :
  privileged rdbAdmin "root" = true /\
  Route.status
    (fst (Route.run (Route.POST upsertChatRow sessRoot bodyOwnChat
                       (JSDate.UTC 2024 1 2 9 0 0) (JSDate.UTC 2024 1 2 9 0 1) "c2")
            rdbAdmin)) <> 429.
Proof.
  split; [reflexivity|].
  exact (proj1 (proj2 (POST_admin_never_limited_still_recorded upsertChatRow sessRoot
           bodyOwnChat (JSDate.UTC 2024 1 2 9 0 0) (JSDate.UTC 2024 1 2 9 0 1) "c2"
           rdbAdmin {| Route.Session.id := "root" |} (fun d a => eq_refl)
           eq_refl eq_refl))).
Defined.

(** X12. Two requests in a row: when a request of a user who is not an
    administrator has been let through the gate, whatever its outcome
    (200, 400 or 404), every later request of that user whose check
    falls in a UTC day that began at or before the first usage row was
    stamped is answered 429 and writes nothing ([upsertChat] is assumed
    to leave the users and the usage rows alone). *)
Theorem POST_second_request_same_day_refused
    (upsertChat : Route.DB -> Route.UpsertChat.Args -> Route.DB)
    (session : option Route.Session.t) (body body2 : Route.Body.t)
    (tCheck tRecord tCheck2 tRecord2 : Z) (uuid uuid2 : string) (db : Route.DB)
    (su : Route.Session.User) :
  (forall d a, Route.requests (upsertChat d a) = Route.requests d) ->
  (forall d a, Route.users (upsertChat d a) = Route.users d) ->
  Route.sessionUser session = Some su ->
  privileged db (Route.Session.id su) = false ->
  let out := Route.run (Route.POST upsertChat session body tCheck tRecord uuid) db in
  Route.status (fst out) <> 429 ->
  JSDate.setUTCHours0 tCheck2 <= tRecord ->
  Route.run (Route.POST upsertChat session body2 tCheck2 tRecord2 uuid2) (snd out) =
  (Route.TextResponse "Rate limit exceeded" 429, snd out).
Proof.
  intros Hreq Husr Hs Hp out Hst Hw. subst out.
  destruct (Route.checkRateLimit db tCheck (Route.Session.id su)) eqn:Hc;
    [|rewrite (POST_rate_limited upsertChat session body tCheck tRecord uuid db su Hs Hc)
        in Hst; now elim Hst].
  apply (POST_rate_limited upsertChat session body2 tCheck2 tRecord2 uuid2 _ su Hs).
  rewrite <- (recordRequest_closes_gate db tRecord tCheck2 _ Hp Hw).
  apply Route_checkRateLimit_frame.
  - rewrite (POST_admitted upsertChat session body tCheck tRecord uuid db su Hs Hc).
    cbv zeta. destruct (Route.Body.messages body); [reflexivity|].
    destruct (Route.falsyString _); [apply Husr|].
    destruct (find _ _) as [ch|]; [|reflexivity].
    destruct (_ =? _)%string; reflexivity.
  - apply (POST_admitted_requests upsertChat session body tCheck tRecord uuid db su
             Hreq Hs Hc).
Qed.

Lemma POST_second_request_same_day_refused_witness :
  Route.status
    (fst (Route.run (Route.POST upsertChatRow sessAlice bodyEmpty
                       (JSDate.UTC 2024 1 2 0 0 1) (JSDate.UTC 2024 1 2 0 0 2) "c2")
            rdb)) = 400 /\
  Route.status
    (fst (Route.run (Route.POST upsertChatRow sessAlice bodyNewChat
                       (JSDate.UTC 2024 1 2 23 59 58) (JSDate.UTC 2024 1 2 23 59 59) "c3")
            (snd (Route.run (Route.POST upsertChatRow sessAlice bodyEmpty
                               (JSDate.UTC 2024 1 2 0 0 1) (JSDate.UTC 2024 1 2 0 0 2) "c2")
                    rdb)))) = 429.
Proof.
  split; [reflexivity|].
  rewrite (POST_second_request_same_day_refused upsertChatRow sessAlice bodyEmpty
             bodyNewChat (JSDate.UTC 2024 1 2 0 0 1) (JSDate.UTC 2024 1 2 0 0 2)
             (JSDate.UTC 2024 1 2 23 59 58) (JSDate.UTC 2024 1 2 23 59 59) "c2" "c3" rdb
             {| Route.Session.id := "alice" |}
             (fun d a => eq_refl) (fun d a => eq_refl) eq_refl eq_refl).
  - reflexivity.
  - vm_compute. discriminate.
  - vm_compute. discriminate.
Defined.

(** ** Storing the chat when the model has answered *)

Lemma onFinish_nonempty
    (upsertChat : Route.DB -> Route.UpsertChat.Args -> Route.DB)
    (R : Type) (app : list Route.Message -> list R -> list Route.Message)
    (u c : string) (msgs : list Route.Message) (resp : list R) (d : Route.DB) :
  msgs <> [] ->
  Stream.onFinish upsertChat R app u c msgs resp d =
  upsertChat d
    {| Route.UpsertChat.userId := u;
       Route.UpsertChat.chatId := c;
       Route.UpsertChat.title := Route.chatTitle msgs;
       Route.UpsertChat.messages := app msgs resp |}.
Proof.
  intros Hne. destruct (exists_last Hne) as (l & x & ->).
  unfold Stream.onFinish, Route.chatTitle.
  destruct (last_nth_error l x {| Route.role := EmptyString; Route.content := EmptyString |})
    as [Hnth Hlast].
  rewrite Hnth, Hlast. reflexivity.
Qed.

(** X13. For every data stream the handler returns, [onFinish] does store the
    chat: its guard for a missing last message never fires, and
    [upsertChat] is called for the session user and the chat id of the
    response, with the same title as computed by the handler and the
    messages merged by [appendResponseMessages].  Called on an empty
    message list, [onFinish] leaves the database alone. *)
Theorem onFinish_stores_the_streamed_chat
    (upsertChat : Route.DB -> Route.UpsertChat.Args -> Route.DB)
    (R : Type) (appendResponseMessages : list Route.Message -> list R -> list Route.Message)
    (session : option Route.Session.t) (body : Route.Body.t)
    (tCheck tRecord : Z) (uuid : string) (db : Route.DB)
    (su : Route.Session.User) (isNewChat : bool) (c : string) (msgs : list Route.Message) :
  Route.sessionUser session = Some su ->
  fst (Route.run (Route.POST upsertChat session body tCheck tRecord uuid) db) =
    Route.DataStreamResponse isNewChat c msgs ->
  (forall (resp : list R) (d : Route.DB),
     Stream.onFinish upsertChat R appendResponseMessages (Route.Session.id su) c msgs resp d =
     upsertChat d
       {| Route.UpsertChat.userId := Route.Session.id su;
          Route.UpsertChat.chatId := c;
          Route.UpsertChat.title := Route.chatTitle msgs;
          Route.UpsertChat.messages := appendResponseMessages msgs resp |}) /\
  (forall (resp : list R) (d : Route.DB),
     Stream.onFinish upsertChat R appendResponseMessages (Route.Session.id su) c [] resp d = d).
Proof.
  intros Hs Hout. split; [|reflexivity].
  intros resp d. apply onFinish_nonempty.
  destruct (Route.checkRateLimit db tCheck (Route.Session.id su)) eqn:Hc;
    [|rewrite (POST_rate_limited upsertChat session body tCheck tRecord uuid db su Hs Hc)
        in Hout; discriminate].
  rewrite (POST_admitted upsertChat session body tCheck tRecord uuid db su Hs Hc) in Hout.
  cbv zeta in Hout.
  destruct (Route.Body.messages body) as [|m ms]; [discriminate|].
  destruct (Route.falsyString _).
  - injection Hout as _ _ <-. discriminate.
  - destruct (find _ _) as [ch|]; [|discriminate].
    destruct (_ =? _)%string; [|discriminate].
    injection Hout as _ _ <-. discriminate.
Qed.

Lemma onFinish_stores_the_streamed_chat_witness :
  Stream.onFinish upsertChatRow Route.Message (@List.app Route.Message)
    "alice" "c2" [hello] [hello] rdb =
  upsertChatRow rdb
    {| Route.UpsertChat.userId := "alice";
       Route.UpsertChat.chatId := "c2";
       Route.UpsertChat.title := Route.chatTitle [hello];
       Route.UpsertChat.messages := [hello; hello] |}.
Proof.
  exact (proj1 (onFinish_stores_the_streamed_chat upsertChatRow Route.Message
                  (@List.app Route.Message) sessAlice bodyNewChat
                  (JSDate.UTC 2024 1 2 0 0 1) (JSDate.UTC 2024 1 2 0 0 2) "c2" rdb
                  {| Route.Session.id := "alice" |} true "c2" [hello] eq_refl eq_refl)
           [hello] rdb).
Defined.

(** ** The title of a chat *)





